(** * Figma card extractor and full-file exporter: model and properties

    A shallow embedding of [scripts/extract-figma-cards.js] and
    [scripts/figma-fetch.js].

    Conventions of the model.
    - A JavaScript string is a [string]; each [ascii] is one UTF-16 code
      unit in the range 0..255 (the Latin-1 block), on which
      [toLowerCase] and the regular-expression class [\s] are written out
      in full.
    - A JavaScript number is an exact rational [Q]; [Math.round] is
      [floor (x + 1/2)].  An integral number prints in decimal; the
      printing of a non-integral number is the section variable
      [fmt_fraction] (ECMAScript's Number::toString on such a value).
    - An optional property is an [option]; [null] and [undefined] are
      both [None].
    - An object whose property order matters is an association list.
    - A [Set] is the list of its elements in insertion order. *)

From Stdlib Require Import ZArith QArith Qround String Ascii List Bool Lia Lqa.
From Stdlib Require Import DecimalString HexadecimalString.
Import ListNotations.

Set Warnings "-register-all".

Close Scope Q_scope.
Open Scope string_scope.
Open Scope list_scope.

(** ** Strings *)

Module JsString.

Definition code (c : ascii) : N := N_of_ascii c.

Definition between (lo hi : N) (c : ascii) : bool :=
  (lo <=? code c)%N && (code c <=? hi)%N.

(** [String.prototype.toLowerCase] on one code unit below 256: the
    ASCII capitals and the Latin-1 capitals U+00C0..U+00DE, the
    multiplication sign U+00D7 excepted, move up by 32. *)
Definition lower_char (c : ascii) : ascii :=
  if between 65 90 c then ascii_of_N (code c + 32)
  else if between 192 222 c && negb (code c =? 215)%N
       then ascii_of_N (code c + 32)
       else c.

Fixpoint toLowerCase (s : string) : string :=
  match s with
  | EmptyString => EmptyString
  | String c r => String (lower_char c) (toLowerCase r)
  end.

(** The class [\s] below 256: tab, line feed, vertical tab, form feed,
    carriage return, space and the no-break space U+00A0. *)
Definition is_space (c : ascii) : bool :=
  between 9 13 c || (code c =? 32)%N || (code c =? 160)%N.

(** [s.replace(/\s+/g, '-')]: every maximal run of white space becomes
    one hyphen.  [in_run] tells that the previous unit was white space,
    whose hyphen is already out. *)
Fixpoint replace_space_runs (in_run : bool) (s : string) : string :=
  match s with
  | EmptyString => EmptyString
  | String c r =>
      if is_space c
      then if in_run then replace_space_runs true r
           else String "-" (replace_space_runs true r)
      else String c (replace_space_runs false r)
  end.

(** The class [[a-z0-9-]]. *)
Definition is_slug_char (c : ascii) : bool :=
  between 97 122 c || between 48 57 c || (code c =? 45)%N.

(** [s.replace(/[^a-z0-9-]/g, '')]. *)
Fixpoint strip_non_slug (s : string) : string :=
  match s with
  | EmptyString => EmptyString
  | String c r =>
      if is_slug_char c then String c (strip_non_slug r)
      else strip_non_slug r
  end.

(** [name.toLowerCase().replace(/\s+/g, '-').replace(/[^a-z0-9-]/g, '')],
    the expression of lines 199, 204, 220, 232 and 278. *)
Definition slugify (name : string) : string :=
  strip_non_slug (replace_space_runs false (toLowerCase name)).

Fixpoint all_slug (s : string) : bool :=
  match s with
  | EmptyString => true
  | String c r => is_slug_char c && all_slug r
  end.

(** [s.includes(t)] *)
Fixpoint includes (s t : string) : bool :=
  prefix t s ||
  match s with
  | EmptyString => false
  | String _ r => includes r t
  end.

(** [pad.repeat(n)] *)
Fixpoint repeat (pad : string) (n : nat) : string :=
  match n with
  | O => EmptyString
  | S k => pad ++ repeat pad k
  end.

(** [s.padStart(2, '0')] *)
Definition padStart2 (s : string) : string :=
  match s with
  | EmptyString => "00"
  | String c EmptyString => String "0" (String c EmptyString)
  | _ => s
  end.

Definition truthy (s : string) : bool :=
  match s with EmptyString => false | _ => true end.

End JsString.

(** ** Numbers *)

Module JsNumber.

(** Truthiness of a number: every number but zero. *)
Definition truthy (q : Q) : bool := negb (Qnum q =? 0)%Z.

(** [x || d] for an optional numeric property [x]. *)
Definition or_else (x : option Q) (d : Q) : Q :=
  match x with
  | Some q => if truthy q then q else d
  | None => d
  end.

(** [Math.round]: the nearest integer, a tie going up. *)
Definition Math_round (q : Q) : Z := Qfloor (q + (1 # 2))%Q.

Definition is_integral (q : Q) : bool :=
  (Qnum q mod Zpos (Qden q) =? 0)%Z.

(** Decimal text of an integer, as in a template literal. *)
Definition Z_toString (z : Z) : string :=
  DecimalString.NilEmpty.string_of_int (Z.to_int z).

(** [n.toString(16)] for an integer [n]: lower-case digits, a leading
    minus sign for a negative one. *)
Definition Z_toString16 (z : Z) : string :=
  HexadecimalString.NilEmpty.string_of_int (Z.to_hex_int z).

(** The digits after the point of [num / den], for [0 <= num < den],
    as far as [fuel] reaches. *)
Fixpoint fraction_digits (fuel : nat) (num den : Z) : string :=
  match fuel with
  | O => EmptyString
  | S k =>
      if (num =? 0)%Z then EmptyString
      else String (ascii_of_N (48 + Z.to_N (num * 10 / den)))
                  (fraction_digits k (num * 10 mod den) den)
  end.

(** A printer of non-integral numbers: the decimal expansion, up to 17
    digits after the point.  It is Number::toString on the numbers
    that are short decimal fractions, such as 0.5 or 13.25. *)
Definition decimal (q : Q) : string :=
  let n := Z.abs (Qnum q) in
  let d := Zpos (Qden q) in
  (if (Qnum q <? 0)%Z then "-" else EmptyString)
  ++ Z_toString (n / d) ++ "." ++ fraction_digits 17 (n mod d) d.

Section Printing.
Variable fmt_fraction : Q -> string.

(** Number::toString, radix 10. *)
Definition toString (q : Q) : string :=
  if is_integral q then Z_toString (Qnum q / Zpos (Qden q))
  else fmt_fraction q.
End Printing.

End JsNumber.

(** ** Objects with ordered properties *)

Module JsObject.

(** [obj[key]] on an object literal whose own keys are those of [obj]. *)
Fixpoint get {A} (key : string) (obj : list (string * A)) : option A :=
  match obj with
  | [] => None
  | (k, v) :: rest => if String.eqb key k then Some v else get key rest
  end.

End JsObject.

(** A [Set] of strings: [add] keeps the first occurrence in place. *)
Module JsSet.

Definition t := list string.

Definition empty : t := [].

Fixpoint has (s : t) (x : string) : bool :=
  match s with
  | [] => false
  | y :: r => String.eqb x y || has r x
  end.

Definition add (s : t) (x : string) : t :=
  if has s x then s else s ++ [x].

Definition size (s : t) : nat := List.length s.

End JsSet.

(** ** The Figma document, as the REST API returns it *)

Module Color.
Record t := make {
  r : Q;
  g : Q;
  b : Q;
  a : option Q
}.
End Color.

Module Paint.
Record t := make {
  type : string;
  color : option Color.t
}.
End Paint.

Module Rectangle.
Record t := make {
  x : option Q;
  y : option Q;
  width : option Q;
  height : option Q
}.
End Rectangle.

Module TypeStyle.
Record t := make {
  fontFamily : option string;
  fontSize : option Q;
  fontWeight : option Q;
  letterSpacing : option Q;
  lineHeightPx : option Q
}.
End TypeStyle.

Module Node.
Inductive t := make {
  id : string;
  name : string;
  type : string;
  absoluteBoundingBox : option Rectangle.t;
  cornerRadius : option Q;
  fills : option (list Paint.t);
  strokes : option (list Paint.t);
  strokeWeight : option Q;
  style : option TypeStyle.t;
  characters : option string;
  children : option (list t)
}.

(** [node.children] read as a list; a node without the property has
    no child to visit. *)
Definition kids (n : t) : list t :=
  match children n with Some l => l | None => [] end.

(** Number of descendants of a node. *)
Fixpoint descendants (n : t) : nat :=
  match n with
  | make _ _ _ _ _ _ _ _ _ _ (Some l) =>
      (fix over (l : list t) : nat :=
         match l with
         | [] => 0
         | c :: rest => S (descendants c) + over rest
         end) l
  | make _ _ _ _ _ _ _ _ _ _ None => 0
  end.
End Node.

(** ** scripts/extract-figma-cards.js: the extracted specification *)

(** A property value of a text-style object: a string or a number. *)
Module JsValue.
Inductive t :=
| Str (s : string)
| Num (q : Q).
End JsValue.

Module ChildSpec.
Record Dimensions := makeDimensions {
  x : Q;
  y : Q;
  width : Q;
  height : Q
}.

Record Styles := makeStyles {
  backgroundColor : option string;
  borderRadius : Q
}.

Record t := make {
  id : string;
  name : string;
  type : string;
  depth : nat;
  dimensions : Dimensions;
  styles : Styles;
  textContent : option string;
  textStyle : option (list (string * JsValue.t))
}.
End ChildSpec.

Module Specs.
Record Dimensions := makeDimensions {
  width : Q;
  height : Q
}.

Record Styles := makeStyles {
  backgroundColor : option string;
  borderRadius : Q;
  borderWidth : Q;
  borderColor : option string
}.

Record t := make {
  id : string;
  name : string;
  type : string;
  dimensions : Dimensions;
  styles : Styles;
  children : list ChildSpec.t;
  text : list string;
  colors : JsSet.t;
  typography : JsSet.t
}.

(** [specs.children.push(c)] *)
Definition push_child (s : t) (c : ChildSpec.t) : t :=
  make (id s) (name s) (type s) (dimensions s) (styles s)
       (children s ++ [c]) (text s) (colors s) (typography s).

(** [specs.colors.add(v)] *)
Definition add_color (s : t) (v : string) : t :=
  make (id s) (name s) (type s) (dimensions s) (styles s)
       (children s) (text s) (JsSet.add (colors s) v) (typography s).

(** [specs.typography.add(v)] *)
Definition add_typography (s : t) (v : string) : t :=
  make (id s) (name s) (type s) (dimensions s) (styles s)
       (children s) (text s) (colors s) (JsSet.add (typography s) v).
End Specs.

Module SpecFile.
Record DesignTokens := makeDesignTokens {
  colors : list string;
  typography : list string
}.

Record Implementation := makeImplementation {
  htmlStructure : string;
  cssClasses : string
}.

Record t := make {
  cardName : string;
  extractedAt : string;
  specifications : Specs.t;
  designTokens : DesignTokens;
  implementation : Implementation
}.
End SpecFile.

(** ** JSON.stringify on a text-style object *)

Module Json.
Import JsString.

Definition quote : string := String (ascii_of_nat 34) EmptyString.
Definition backslash : string := String (ascii_of_nat 92) EmptyString.

Definition hex_digit (n : N) : ascii :=
  if (n <? 10)%N then ascii_of_N (48 + n) else ascii_of_N (87 + n).

(** QuoteJSONString on one code unit below 256. *)
Definition escape_char (c : ascii) : string :=
  let n := code c in
  if (n =? 34)%N then backslash ++ quote
  else if (n =? 92)%N then backslash ++ backslash
  else if (n =? 8)%N then backslash ++ "b"
  else if (n =? 9)%N then backslash ++ "t"
  else if (n =? 10)%N then backslash ++ "n"
  else if (n =? 12)%N then backslash ++ "f"
  else if (n =? 13)%N then backslash ++ "r"
  else if (n <? 32)%N
       then backslash ++ "u00"
            ++ String (hex_digit (n / 16)) (String (hex_digit (n mod 16)) EmptyString)
       else String c EmptyString.

Fixpoint escape (s : string) : string :=
  match s with
  | EmptyString => EmptyString
  | String c r => escape_char c ++ escape r
  end.

Definition quoted (s : string) : string := quote ++ escape s ++ quote.

Section Stringify.
Variable fmt_fraction : Q -> string.

Definition value (v : JsValue.t) : string :=
  match v with
  | JsValue.Str s => quoted s
  | JsValue.Num q => JsNumber.toString fmt_fraction q
  end.

Definition member (kv : string * JsValue.t) : string :=
  quoted (fst kv) ++ ":" ++ value (snd kv).

Fixpoint members (l : list (string * JsValue.t)) : string :=
  match l with
  | [] => EmptyString
  | [kv] => member kv
  | kv :: rest => member kv ++ "," ++ members rest
  end.

(** [JSON.stringify(obj)] for an object of strings and numbers. *)
Definition stringify (obj : list (string * JsValue.t)) : string :=
  "{" ++ members obj ++ "}".
End Stringify.
End Json.

(** ** scripts/extract-figma-cards.js: pure helpers *)

Section Extractor.
Import JsString.
Variable fmt_fraction : Q -> string.

(** A number inside a template literal. *)
Definition show (q : Q) : string := JsNumber.toString fmt_fraction q.

Definition nl : string := String (ascii_of_nat 10) EmptyString.

(** [Math.round(v * 255)] *)
Definition channel (v : Q) : Z := JsNumber.Math_round (v * 255)%Q.

Definition figmaColorToCSS (figmaColor : option Color.t) : string :=
  match figmaColor with
  | None => "transparent"
  | Some c =>
      let alpha := match Color.a c with Some v => v | None => 1%Q end in
      "rgba(" ++ JsNumber.Z_toString (channel (Color.r c)) ++ ", "
              ++ JsNumber.Z_toString (channel (Color.g c)) ++ ", "
              ++ JsNumber.Z_toString (channel (Color.b c)) ++ ", "
              ++ show alpha ++ ")"
  end.

(** [Math.round(v * 255).toString(16).padStart(2, '0')] *)
Definition hex2 (v : Q) : string := padStart2 (JsNumber.Z_toString16 (channel v)).

(** The constant [hex] of [mapToDesignToken]. *)
Definition hex (c : Color.t) : string :=
  "#" ++ hex2 (Color.r c) ++ hex2 (Color.g c) ++ hex2 (Color.b c).

Definition colorMap : list (string * string) :=
  [ ("#ffffff", "var(--white)");
    ("#fcfcfc", "var(--white)");
    ("#030303", "var(--black)");
    ("#6b7280", "var(--gray-500)");
    ("#374151", "var(--gray-700)");
    ("#1f2937", "var(--gray-800)");
    ("#f3f4f6", "var(--gray-100)");
    ("#e5e7eb", "var(--gray-200)");
    ("#3b82f6", "var(--blue-500)");
    ("#1d4ed8", "var(--blue-700)");
    ("#dbeafe", "var(--blue-100)");
    ("#6366f1", "var(--indigo-500)");
    ("#8b5cf6", "var(--violet-500)");
    ("#ec4899", "var(--pink-500)");
    ("#f472b6", "var(--pink-400)");
    ("#fce7f3", "var(--pink-100)") ].

(** [colorMap[hex] || figmaColorToCSS(color)]; a key starts with [#],
    so the lookup never reaches a property of [Object.prototype]. *)
Definition mapToDesignToken (color : option Color.t) : string :=
  match color with
  | None => "var(--fg-text)"
  | Some c =>
      match JsObject.get (hex c) colorMap with
      | Some token => if truthy token then token else figmaColorToCSS color
      | None => figmaColorToCSS color
      end
  end.

(** [q ? `${q}px` : fallback] for an optional numeric property. *)
Definition px_or (q : option Q) (fallback : string) : string :=
  match q with
  | Some v => if JsNumber.truthy v then show v ++ "px" else fallback
  | None => fallback
  end.

Definition getTextStyle (node : Node.t) : list (string * JsValue.t) :=
  match Node.style node with
  | None => []
  | Some style =>
      [ ("fontFamily",
          JsValue.Str match TypeStyle.fontFamily style with
                      | Some f => if truthy f then f else "var(--font-family-base)"
                      | None => "var(--font-family-base)"
                      end);
        ("fontSize",
          JsValue.Str (px_or (TypeStyle.fontSize style)
                             "var(--text-base-regular-size-rem)"));
        ("fontWeight",
          match TypeStyle.fontWeight style with
          | Some w => if JsNumber.truthy w then JsValue.Num w else JsValue.Str "400"
          | None => JsValue.Str "400"
          end);
        ("letterSpacing",
          JsValue.Str (px_or (TypeStyle.letterSpacing style) "normal"));
        ("lineHeight",
          JsValue.Str (px_or (TypeStyle.lineHeightPx style) "normal")) ]
  end.

(** [box?.field || 0] *)
Definition box_field (box : option Rectangle.t)
           (field : Rectangle.t -> option Q) : Q :=
  match box with
  | Some bx => JsNumber.or_else (field bx) 0%Q
  | None => 0%Q
  end.

(** The colour of [paints[0]] when the list is present and non-empty
    and that paint is of type SOLID: the guard shared by the three
    colour extractions (lines 108-110, 117-120, 151-153). *)
Definition first_solid (paints : option (list Paint.t)) : option (option Color.t) :=
  match paints with
  | Some (p :: _) =>
      if String.eqb (Paint.type p) "SOLID" then Some (Paint.color p) else None
  | _ => None
  end.

(** [specs.colors.add(figmaColorToCSS(c))] under the guard above. *)
Definition record_color (specs : Specs.t) (paints : option (list Paint.t)) : Specs.t :=
  match first_solid paints with
  | Some c => Specs.add_color specs (figmaColorToCSS c)
  | None => specs
  end.

(** The guard of line 160: [child.type === 'TEXT' && child.characters]. *)
Definition text_of (child : Node.t) : option string :=
  if String.eqb (Node.type child) "TEXT"
  then match Node.characters child with
       | Some s => if truthy s then Some s else None
       | None => None
       end
  else None.

(** The [childSpec] object as it stands when it is pushed. *)
Definition childSpec (child : Node.t) (depth : nat) : ChildSpec.t :=
  let box := Node.absoluteBoundingBox child in
  ChildSpec.make
    (Node.id child) (Node.name child) (Node.type child) depth
    (ChildSpec.makeDimensions
       (box_field box Rectangle.x) (box_field box Rectangle.y)
       (box_field box Rectangle.width) (box_field box Rectangle.height))
    (ChildSpec.makeStyles
       (option_map mapToDesignToken (first_solid (Node.fills child)))
       (JsNumber.or_else (Node.cornerRadius child) 0%Q))
    (text_of child)
    (match text_of child with
     | Some _ => Some (getTextStyle child)
     | None => None
     end).

(** The body of the [forEach] callback up to the recursive call. *)
Definition visit (specs : Specs.t) (child : Node.t) (depth : nat) : Specs.t :=
  let cs := childSpec child depth in
  let specs := record_color specs (Node.fills child) in
  let specs :=
    match ChildSpec.textStyle cs with
    | Some ts => Specs.add_typography specs (Json.stringify fmt_fraction ts)
    | None => specs
    end in
  Specs.push_child specs cs.

Fixpoint traverseChildren (specs : Specs.t) (node : Node.t) (depth : nat)
  {struct node} : Specs.t :=
  match node with
  | Node.make _ _ _ _ _ _ _ _ _ _ (Some l) =>
      fold_left
        (fun specs child => traverseChildren (visit specs child depth) child (S depth))
        l specs
  | Node.make _ _ _ _ _ _ _ _ _ _ None => specs
  end.

(** [node] is the entry of the response for one node id; [None] stands
    for a missing entry or an entry without [document]. *)
Definition extractCardSpecs (node : option Node.t) : option Specs.t :=
  match node with
  | None => None
  | Some doc =>
      let box := Node.absoluteBoundingBox doc in
      let has_strokes :=
        match Node.strokes doc with Some (_ :: _) => true | _ => false end in
      let specs :=
        Specs.make
          (Node.id doc) (Node.name doc) (Node.type doc)
          (Specs.makeDimensions
             (box_field box Rectangle.width) (box_field box Rectangle.height))
          (Specs.makeStyles
             (option_map mapToDesignToken (first_solid (Node.fills doc)))
             (JsNumber.or_else (Node.cornerRadius doc) 0%Q)
             (if has_strokes then JsNumber.or_else (Node.strokeWeight doc) 1%Q else 0%Q)
             (option_map mapToDesignToken (first_solid (Node.strokes doc))))
          [] [] JsSet.empty JsSet.empty in
      let specs := record_color specs (Node.fills doc) in
      let specs := record_color specs (Node.strokes doc) in
      Some (traverseChildren specs doc 0)
  end.
End Extractor.

(** ** scripts/extract-figma-cards.js: HTML and CSS generation *)

Section Generator.
Import JsString.
Variable fmt_fraction : Q -> string.

(** [if (v) css += `  prop: ${v};\n`] for an optional string [v]. *)
Definition string_decl (prop : string) (v : option string) : string :=
  match v with
  | Some s => if truthy s then "  " ++ prop ++ ": " ++ s ++ ";" ++ nl else EmptyString
  | None => EmptyString
  end.

(** [if (v) css += `  prop: ${v}px;\n`] for a number [v]. *)
Definition px_decl (prop : string) (v : Q) : string :=
  if JsNumber.truthy v then "  " ++ prop ++ ": " ++ show fmt_fraction v ++ "px;" ++ nl
  else EmptyString.

(** [`${value}`] for a text-style property value. *)
Definition value_text (v : JsValue.t) : string :=
  match v with
  | JsValue.Str s => s
  | JsValue.Num q => show fmt_fraction q
  end.

(** One step of [Object.entries(child.textStyle).forEach]. *)
Definition entry_decl (kv : string * JsValue.t) : string :=
  "  " ++ fst kv ++ ": " ++ value_text (snd kv) ++ ";" ++ nl.

Definition concat_strings (l : list string) : string :=
  fold_right append EmptyString l.

(** Lines 222-229: the rule block of the root. *)
Definition rootBlock (specs : Specs.t) : string :=
  let mainClass := slugify (Specs.name specs) in
  let st := Specs.styles specs in
  "." ++ mainClass ++ " {" ++ nl
  ++ "  width: " ++ show fmt_fraction (Specs.width (Specs.dimensions specs)) ++ "px;" ++ nl
  ++ "  height: " ++ show fmt_fraction (Specs.height (Specs.dimensions specs)) ++ "px;" ++ nl
  ++ string_decl "background-color" (Specs.backgroundColor st)
  ++ px_decl "border-radius" (Specs.borderRadius st)
  ++ px_decl "border-width" (Specs.borderWidth st)
  ++ string_decl "border-color" (Specs.borderColor st)
  ++ "}" ++ nl ++ nl.

(** Lines 232-246: the rule block of one child. *)
Definition childBlock (mainClass : string) (child : ChildSpec.t) : string :=
  let childClass := slugify (ChildSpec.name child) in
  let dim := ChildSpec.dimensions child in
  "." ++ mainClass ++ " ." ++ childClass ++ " {" ++ nl
  ++ "  position: absolute;" ++ nl
  ++ "  left: " ++ show fmt_fraction (ChildSpec.x dim) ++ "px;" ++ nl
  ++ "  top: " ++ show fmt_fraction (ChildSpec.y dim) ++ "px;" ++ nl
  ++ "  width: " ++ show fmt_fraction (ChildSpec.width dim) ++ "px;" ++ nl
  ++ "  height: " ++ show fmt_fraction (ChildSpec.height dim) ++ "px;" ++ nl
  ++ string_decl "background-color" (ChildSpec.backgroundColor (ChildSpec.styles child))
  ++ px_decl "border-radius" (ChildSpec.borderRadius (ChildSpec.styles child))
  ++ match ChildSpec.textStyle child with
     | Some ts => concat_strings (map entry_decl ts)
     | None => EmptyString
     end
  ++ "}" ++ nl ++ nl.

Definition generateCSSClasses (specs : Specs.t) : string :=
  let mainClass := slugify (Specs.name specs) in
  rootBlock specs
  ++ concat_strings (map (childBlock mainClass) (Specs.children specs)).

(** Lines 204-211: the line of one child. *)
Definition childLine (child : ChildSpec.t) : string :=
  let childClass := slugify (ChildSpec.name child) in
  let indent := repeat "  " (ChildSpec.depth child + 1) in
  match ChildSpec.textContent child with
  | Some txt =>
      if truthy txt
      then indent ++ "<span class=" ++ Json.quote ++ childClass ++ Json.quote ++ ">"
           ++ txt ++ "</span>" ++ nl
      else indent ++ "<div class=" ++ Json.quote ++ childClass ++ Json.quote ++ "></div>" ++ nl
  | None =>
      indent ++ "<div class=" ++ Json.quote ++ childClass ++ Json.quote ++ "></div>" ++ nl
  end.

Definition generateHTMLStructure (specs : Specs.t) : string :=
  let mainClass := slugify (Specs.name specs) in
  "<div class=" ++ Json.quote ++ mainClass ++ Json.quote ++ ">" ++ nl
  ++ concat_strings (map childLine (Specs.children specs))
  ++ "</div>".

(** [extractedAt] is the reading of the clock, [new Date().toISOString()]. *)
Definition generateSpecFile (extractedAt : string) (specs : Specs.t)
           (cardName : string) : SpecFile.t :=
  SpecFile.make cardName extractedAt specs
    (SpecFile.makeDesignTokens (Specs.colors specs) (Specs.typography specs))
    (SpecFile.makeImplementation
       (generateHTMLStructure specs) (generateCSSClasses specs)).
End Generator.

(** ** Effects: a trace of events and a thrown error *)

Module IO.
Section Monad.
Variable E : Type.

(** A computation: the events it performed, then the message of the
    [Error] it threw or the value it returned. *)
Definition t (A : Type) : Type := list E * (string + A).

Definition ret {A} (v : A) : t A := ([], inr v).

Definition throw {A} (message : string) : t A := ([], inl message).

Definition emit (e : E) : t unit := ([e], inr tt).

Definition bind {A B} (m : t A) (k : A -> t B) : t B :=
  match m with
  | (tr, inl message) => (tr, inl message)
  | (tr, inr v) => let '(tr', res) := k v in (tr ++ tr', res)
  end.

(** [try { m } catch (error) { handler(error.message) }] *)
Definition try_catch {A} (m : t A) (handler : string -> t A) : t A :=
  match m with
  | (tr, inl message) => let '(tr', res) := handler message in (tr ++ tr', res)
  | (tr, inr v) => (tr, inr v)
  end.

Definition events {A} (m : t A) : list E := fst m.
Definition outcome {A} (m : t A) : string + A := snd m.
End Monad.

Arguments ret {E A} v.
Arguments throw {E A} message.
Arguments emit {E} e.
Arguments bind {E A B} m k.
Arguments try_catch {E A} m handler.
Arguments events {E A} m.
Arguments outcome {E A} m.
End IO.

Declare Scope io_scope.
Delimit Scope io_scope with io.
Notation "x <- m ;; k" := (IO.bind m (fun x => k))
  (at level 61, m at next level, right associativity) : io_scope.
Notation "m ;;; k" := (IO.bind m (fun _ => k))
  (at level 61, right associativity) : io_scope.

(** What [fetch] resolves to: a transport failure (the promise rejects
    with an [Error] of that message), or a response.  [text] is what
    [res.text()] resolves to; [json] is what [res.json()] settles to, the
    message of its rejection on the left. *)
Module Http.
Inductive result (J : Type) :=
| Failed (message : string)
| Response (ok : bool) (status : Z) (statusText : string)
           (text : string) (json : string + J).
Arguments Failed {J} message.
Arguments Response {J} ok status statusText text json.

(** The fetch failed: no response came, or one whose status is not a
    success ([res.ok] is false). *)
Definition unsuccessful {J} (r : result J) : bool :=
  match r with
  | Failed _ => true
  | Response ok _ _ _ _ => negb ok
  end.

(** The body of a successful response that parses as JSON. *)
Definition fulfilled {J} (r : result J) : option J :=
  match r with
  | Response true _ _ _ (inr v) => Some v
  | _ => None
  end.
End Http.

(** ** scripts/extract-figma-cards.js: the batch driver *)

Module Summary.
Record card := makeCard {
  name : string;
  children : nat;
  colors : nat;
  typography : nat
}.

Record t := make {
  extractedAt : string;
  fileId : string;
  totalCards : nat;
  cards : list card
}.
End Summary.

Module Batch.
(** The [nodes] property of a parsed response body: absent, or the
    entries by node id, each with its [document] when it has one. *)
Definition body : Type := option (list (string * option Node.t)).

(** The effects of the script, standard output left out:
    - [Get url token]: [fetch(url, {headers: {'X-Figma-Token': token}})];
    - [MkDir path]: [fs.mkdirSync(path, {recursive: true})];
    - [WriteSpec path v], [WriteSummary path v]:
      [fs.writeFileSync(path, JSON.stringify(v, null, 2))];
    - [ConsoleError nodeId message]: the [console.error] of line 290. *)
Inductive event :=
| Get (url : string) (token : option string)
| MkDir (path : string)
| WriteSpec (path : string) (content : SpecFile.t)
| WriteSummary (path : string) (content : Summary.t)
| ConsoleError (nodeId message : string).

Definition is_write (e : event) : bool :=
  match e with
  | WriteSpec _ _ | WriteSummary _ _ => true
  | _ => false
  end.

(** The URLs fetched along a trace, in order. *)
Definition requests (tr : list event) : list string :=
  flat_map (fun e => match e with Get url _ => [url] | _ => [] end) tr.

(** The files written along a trace, in order. *)
Definition writes (tr : list event) : list event := filter is_write tr.

Section Driver.
Local Open Scope io_scope.
Import JsString.

Variable fmt_fraction : Q -> string.
(** [process.env.FIGMA_TOKEN] *)
Variable FIGMA_TOKEN : option string.
(** [process.argv[2]] *)
Variable argv2 : option string.
(** What the network answers to a GET of a URL. *)
Variable fetch : string -> Http.result body.
(** [fs.existsSync(OUTPUT_DIR)] *)
Variable output_dir_exists : bool.
(** [new Date().toISOString()] during the iteration of that index;
    the summary reads it at the index after the last. *)
Variable clock : nat -> string.

Definition FILE_ID : string :=
  match argv2 with
  | Some v => if truthy v then v else "zksBuILVajtp60Oca28Vnl"
  | None => "zksBuILVajtp60Oca28Vnl"
  end.

Definition OUTPUT_DIR : string := "./figma-extract".

Definition figmaRequest (endpoint : string) : IO.t event body :=
  let url := ("https://api.figma.com/v1/" ++ endpoint)%string in
  IO.emit (Get url FIGMA_TOKEN) ;;;
  match fetch url with
  | Http.Failed message => IO.throw message
  | Http.Response ok _ statusText _ json =>
      if ok
      then match json with
           | inl message => IO.throw message
           | inr data => IO.ret data
           end
      else IO.throw ("Figma API error: " ++ statusText)%string
  end.

Definition endpoint_of (nodeId : string) : string :=
  "files/" ++ FILE_ID ++ "/nodes?ids=" ++ nodeId.

(** The URL that [getNodeDetails] fetches for a node id. *)
Definition url_of (nodeId : string) : string :=
  "https://api.figma.com/v1/" ++ endpoint_of nodeId.

Definition getNodeDetails (nodeId : string) : IO.t event (option Node.t) :=
  data <- figmaRequest (endpoint_of nodeId) ;;
  match data with
  | None =>
      IO.throw ("Cannot read properties of undefined (reading '" ++ nodeId ++ "')")%string
  | Some nodes =>
      IO.ret match JsObject.get nodeId nodes with
             | Some entry => entry
             | None => None
             end
  end.

(** Lines 274-288: the [try] block of one iteration. *)
Definition attempt (k : nat) (nodeId : string) (allSpecs : list SpecFile.t)
  : IO.t event (list SpecFile.t) :=
  nodeData <- getNodeDetails nodeId ;;
  match extractCardSpecs fmt_fraction nodeData with
  | Some specs =>
      let cardName := slugify (Specs.name specs) in
      let specFile := generateSpecFile fmt_fraction (clock k) specs cardName in
      IO.emit (WriteSpec (OUTPUT_DIR ++ "/" ++ cardName ++ "-specs.json")%string specFile) ;;;
      IO.ret (allSpecs ++ [specFile])
  | None => IO.ret allSpecs
  end.

(** Lines 273-291: one iteration, [try] and [catch]. *)
Definition iteration (k : nat) (nodeId : string) (allSpecs : list SpecFile.t)
  : IO.t event (list SpecFile.t) :=
  IO.try_catch (attempt k nodeId allSpecs)
    (fun message => IO.emit (ConsoleError nodeId message) ;;; IO.ret allSpecs).

(** Lines 272-292: [for (const nodeId of nodeIds)] from index [k]. *)
Fixpoint for_of (k : nat) (nodeIds : list string) (allSpecs : list SpecFile.t)
  : IO.t event (list SpecFile.t) :=
  match nodeIds with
  | [] => IO.ret allSpecs
  | nodeId :: rest =>
      allSpecs' <- iteration k nodeId allSpecs ;;
      for_of (S k) rest allSpecs'
  end.

(** The effects of the iterations over [nodeIds] from index [k], one
    after the other. *)
Fixpoint iterations (k : nat) (nodeIds : list string) : list event :=
  match nodeIds with
  | [] => []
  | nodeId :: rest => IO.events (iteration k nodeId []) ++ iterations (S k) rest
  end.

Definition summary (extractedAt : string) (allSpecs : list SpecFile.t) : Summary.t :=
  Summary.make extractedAt FILE_ID (List.length allSpecs)
    (map (fun spec =>
            Summary.makeCard
              (SpecFile.cardName spec)
              (List.length (Specs.children (SpecFile.specifications spec)))
              (List.length (SpecFile.colors (SpecFile.designTokens spec)))
              (List.length (SpecFile.typography (SpecFile.designTokens spec))))
         allSpecs).

(** The driver over a list of node ids. *)
Definition extract_all (nodeIds : list string) : IO.t event (list SpecFile.t) :=
  match FIGMA_TOKEN with
  | None => IO.throw "FIGMA_TOKEN environment variable is required"
  | Some tok =>
      if truthy tok then
        (if output_dir_exists then IO.ret tt else IO.emit (MkDir OUTPUT_DIR)) ;;;
        allSpecs <- for_of 0 nodeIds [] ;;
        IO.emit (WriteSummary (OUTPUT_DIR ++ "/extraction-summary.json")%string
                              (summary (clock (List.length nodeIds)) allSpecs)) ;;;
        IO.ret allSpecs
      else IO.throw "FIGMA_TOKEN environment variable is required"
  end.

Definition nodeIds : list string := ["21:5359"; "21:5360"].

Definition extractCardSpecifications : IO.t event (list SpecFile.t) :=
  extract_all nodeIds.
End Driver.
End Batch.

(** ** scripts/figma-fetch.js *)

Module JsonValue.
Inductive t :=
| Null
| Bool (b : bool)
| Number (q : Q)
| String (s : string)
| Array (l : list t)
| Object (l : list (string * t)).

(** [v.key] for a value that is not [null]: a property of an object,
    [undefined] on anything else. *)
Definition prop (key : string) (v : t) : option t :=
  match v with
  | Object l => JsObject.get key l
  | _ => None
  end.

(** An object literal as [JSON.stringify] sees it: a property whose
    value is [undefined] is left out. *)
Fixpoint literal (l : list (string * option t)) : list (string * t) :=
  match l with
  | [] => []
  | (k, Some v) :: rest => (k, v) :: literal rest
  | (_, None) :: rest => literal rest
  end.
End JsonValue.

Module FigmaFetch.
Import JsString.

Record request := makeRequest {
  endpoint : string;
  token : string;
  params : list (string * string)
}.

(** The effects of the script, standard output left out:
    - [Get rq]: the [fetch] of [figmaGet], the URL being the base, the
      endpoint and the search parameters of [rq];
    - [MkDir path]: [mkdirSync(path, {recursive: true})];
    - [WriteFile path v]: [writeFile(path, JSON.stringify(v, null, 2))];
    - [ConsoleError message]: [console.error(message)]. *)
Inductive event :=
| Get (rq : request)
| MkDir (path : string)
| WriteFile (path : string) (value : JsonValue.t)
| ConsoleError (message : string).

Definition is_write (e : event) : bool :=
  match e with
  | WriteFile _ _ => true
  | _ => false
  end.

(** The files written along a trace, in order. *)
Definition writes (tr : list event) : list event := filter is_write tr.

Record Args := makeArgs {
  fileKey : option string;
  nodes : bool;
  ids : option string
}.

(** [a || b] on optional strings. *)
Definition or_string (a b : option string) : option string :=
  match a with
  | Some s => if truthy s then a else b
  | None => b
  end.

(** [s.split(',')] *)
Fixpoint split_comma (s : string) : list string :=
  match s with
  | EmptyString => [EmptyString]
  | String c rest =>
      if (code c =? 44)%N then EmptyString :: split_comma rest
      else match split_comma rest with
           | h :: t => String c h :: t
           | [] => [String c EmptyString]
           end
  end.

Fixpoint trimStart (s : string) : string :=
  match s with
  | EmptyString => EmptyString
  | String c rest => if is_space c then trimStart rest else s
  end.

Fixpoint trimEnd (s : string) : string :=
  match s with
  | EmptyString => EmptyString
  | String c rest =>
      match trimEnd rest with
      | EmptyString => if is_space c then EmptyString else String c EmptyString
      | kept => String c kept
      end
  end.

(** [s.trim()] *)
Definition trim (s : string) : string := trimEnd (trimStart s).

(** [l.join(',')] *)
Fixpoint join_comma (l : list string) : string :=
  match l with
  | [] => EmptyString
  | [s] => s
  | s :: rest => s ++ "," ++ join_comma rest
  end.

(** The message of the rejection of [Promise.all]: that of the input
    promise that rejected first.  Each entry pairs the time at which
    the promise settles with the message of its rejection, if it
    rejects; of two rejections at one time the earlier in the array is
    taken. *)
Fixpoint first_rejection (best : option (nat * string))
         (l : list (nat * option string)) : option string :=
  match l with
  | [] => option_map snd best
  | (time, Some message) :: rest =>
      match best with
      | Some (t0, _) =>
          if (time <? t0)%nat then first_rejection (Some (time, message)) rest
          else first_rejection best rest
      | None => first_rejection (Some (time, message)) rest
      end
  | (_, None) :: rest => first_rejection best rest
  end.

Definition rejection {A} (p : nat * IO.t event A) : nat * option string :=
  match IO.outcome (snd p) with
  | inl message => (fst p, Some message)
  | inr _ => (fst p, None)
  end.

Fixpoint fulfilled {A} (l : list (IO.t event A)) : list A :=
  match l with
  | [] => []
  | p :: rest =>
      match IO.outcome p with
      | inr v => v :: fulfilled rest
      | inl _ => fulfilled rest
      end
  end.

(** [await Promise.all(ps)], each promise paired with the time at which
    it settles.  Every call of the array has been made, in order, up to
    its [fetch], so all their events are in the trace whatever the
    outcome. *)
Definition Promise_all {A} (ps : list (nat * IO.t event A)) : IO.t event (list A) :=
  (concat (map (fun p => IO.events (snd p)) ps),
   match first_rejection None (map rejection ps) with
   | Some message => inl message
   | None => inr (fulfilled (map snd ps))
   end).

Section Script.
Local Open Scope io_scope.

(** [process.env] *)
Variable env : string -> option string.
(** [minimist(process.argv.slice(2), ...)] *)
Variable args : Args.
(** [path.resolve(process.cwd(), 'figma-export')] and whether it exists *)
Variable outDir : string.
Variable outDir_exists : bool.
(** What the network answers to a request. *)
Variable fetch : request -> Http.result JsonValue.t.
(** The time at which the promise of that index in the array of
    [Promise.all] settles. *)
Variable settles_at : nat -> nat.
(** [new Date().toISOString()] at line 101 *)
Variable fetchedAt : string.

Definition requireEnv (name : string) : IO.t event string :=
  match env name with
  | Some value =>
      if truthy value then IO.ret value
      else IO.throw ("Missing required env var " ++ name ++ ". See .env.example")%string
  | None => IO.throw ("Missing required env var " ++ name ++ ". See .env.example")%string
  end.

Definition optionalEnv (name : string) : option string := env name.

Definition resolveOutputDir : IO.t event string :=
  (if outDir_exists then IO.ret tt else IO.emit (MkDir outDir)) ;;;
  IO.ret outDir.

Definition figmaGet (endpoint token : string) (params : list (string * string))
  : IO.t event JsonValue.t :=
  let rq := makeRequest endpoint token (filter (fun kv => truthy (snd kv)) params) in
  IO.emit (Get rq) ;;;
  match fetch rq with
  | Http.Failed message => IO.throw message
  | Http.Response ok status statusText text json =>
      if ok
      then match json with
           | inl message => IO.throw message
           | inr v => IO.ret v
           end
      else IO.throw ("Figma API " ++ endpoint ++ " failed: "
                     ++ JsNumber.Z_toString status ++ " " ++ statusText
                     ++ " -> " ++ text)%string
  end.

Definition fetchFile (token fileKey : string) :=
  figmaGet ("/files/" ++ fileKey) token [].

Definition fetchFileStyles (token fileKey : string) :=
  figmaGet ("/files/" ++ fileKey ++ "/styles") token [].

Definition fetchFileComponents (token fileKey : string) :=
  figmaGet ("/files/" ++ fileKey ++ "/components") token [].

Definition fetchFileVariables (token fileKey : string) :=
  figmaGet ("/files/" ++ fileKey ++ "/variables") token [].

Definition fetchComments (token fileKey : string) :=
  figmaGet ("/files/" ++ fileKey ++ "/comments") token [].

Definition fetchNodes (token fileKey : string) (nodeIds : list string) :=
  figmaGet ("/files/" ++ fileKey ++ "/nodes") token [("ids", join_comma nodeIds)].

(** [path.join(outDir, name)] *)
Definition path_join (name : string) : string := outDir ++ "/" ++ name.

(** The object written to the file of the document, lines 101-103. *)
Definition file_payload (file : JsonValue.t) : JsonValue.t :=
  let baseMeta :=
    JsonValue.Object (JsonValue.literal
      [ ("name", JsonValue.prop "name" file);
        ("lastModified", JsonValue.prop "lastModified" file);
        ("version", JsonValue.prop "version" file);
        ("role", JsonValue.prop "role" file);
        ("fetchedAt", Some (JsonValue.String fetchedAt)) ]) in
  JsonValue.Object (JsonValue.literal
    [ ("meta", Some baseMeta);
      ("document", JsonValue.prop "document" file) ]).

(** Lines 93 and 101-107: the destructuring of the first result,
    which throws a [TypeError] on [null], and the five writes. *)
Definition write_all (fileKey : string)
           (file styles components variables comments : JsonValue.t)
  : IO.t event unit :=
  match file with
  | JsonValue.Null =>
      IO.throw "Cannot destructure property 'document' of null"
  | _ =>
      IO.emit (WriteFile (path_join ("file-" ++ fileKey ++ ".json"))
                         (file_payload file)) ;;;
      IO.emit (WriteFile (path_join ("styles-" ++ fileKey ++ ".json")) styles) ;;;
      IO.emit (WriteFile (path_join ("components-" ++ fileKey ++ ".json")) components) ;;;
      IO.emit (WriteFile (path_join ("variables-" ++ fileKey ++ ".json")) variables) ;;;
      IO.emit (WriteFile (path_join ("comments-" ++ fileKey ++ ".json")) comments)
  end.

(** Lines 109-121. *)
Definition export_nodes (token fileKey : string) : IO.t event unit :=
  if nodes args then
    let idsArg :=
      match or_string (ids args) (env "FIGMA_NODE_IDS") with
      | Some s => s
      | None => EmptyString
      end in
    let nodeIds := filter truthy (map trim (split_comma idsArg)) in
    match nodeIds with
    | [] => IO.emit (ConsoleError
              "No node IDs provided. Pass --ids comma-separated or set FIGMA_NODE_IDS.")
    | _ =>
        found <- fetchNodes token fileKey nodeIds ;;
        IO.emit (WriteFile (path_join ("nodes-" ++ fileKey ++ ".json")) found)
    end
  else IO.ret tt.

(** The array handed to [Promise.all], lines 94-98. *)
Definition promises (token fileKey : string)
  : list (nat * IO.t event JsonValue.t) :=
  [ (settles_at 0, fetchFile token fileKey);
    (settles_at 1, fetchFileStyles token fileKey);
    (settles_at 2, fetchFileComponents token fileKey);
    (settles_at 3,
      IO.try_catch (fetchFileVariables token fileKey)
        (fun message =>
           IO.ret (JsonValue.Object [("error", JsonValue.String message)])));
    (settles_at 4, fetchComments token fileKey) ].

(** Lines 93-121 after the join: the array of results is taken
    apart, the files are written, the nodes exported on demand. *)
Definition after_join (token fileKey : string) (results : list JsonValue.t)
  : IO.t event unit :=
  match results with
  | [file; styles; components; variables; comments] =>
      write_all fileKey file styles components variables comments ;;;
      export_nodes token fileKey
  | _ => IO.ret tt
  end.

Definition main : IO.t event unit :=
  token <- requireEnv "FIGMA_PERSONAL_ACCESS_TOKEN" ;;
  match or_string (fileKey args) (optionalEnv "FIGMA_FILE_KEY") with
  | None => IO.throw "No --fileKey provided and FIGMA_FILE_KEY not set in env"
  | Some fileKey =>
      if negb (truthy fileKey)
      then IO.throw "No --fileKey provided and FIGMA_FILE_KEY not set in env"
      else
        resolveOutputDir ;;;
        results <- Promise_all (promises token fileKey) ;;
        after_join token fileKey results
  end.

(** Lines 126-129: [main().catch(...)]; the trace and the exit code. *)
Definition script : list event * Z :=
  match main with
  | (tr, inl message) => (tr ++ [ConsoleError message], 1%Z)
  | (tr, inr _) => (tr, 0%Z)
  end.
End Script.
End FigmaFetch.

(** ** Notions the properties are stated with *)

Module Walk.
(** The descendants of a node in depth-first pre-order, each with its
    nesting depth; the children of the start node are at [depth]. *)
Fixpoint preorder (depth : nat) (n : Node.t) : list (Node.t * nat) :=
  match n with
  | Node.make _ _ _ _ _ _ _ _ _ _ (Some l) =>
      flat_map (fun c => (c, depth) :: preorder (S depth) c) l
  | Node.make _ _ _ _ _ _ _ _ _ _ None => []
  end.

(** [nested root d n]: [n] is a descendant of [root], [d] levels below
    the children of [root]. *)
Inductive nested (root : Node.t) : nat -> Node.t -> Prop :=
| nested_child c :
    In c (Node.kids root) -> nested root 0 c
| nested_deeper p d c :
    nested root d p -> In c (Node.kids p) -> nested root (S d) c.

Section Occurrences.
Variable fmt_fraction : Q -> string.

(** The argument of [specs.colors.add] at one list of paints, if the
    call is made. *)
Definition color_at (paints : option (list Paint.t)) : list string :=
  match first_solid paints with
  | Some c => [figmaColorToCSS fmt_fraction c]
  | None => []
  end.

(** The argument of [specs.typography.add] at one descendant, if the
    call is made. *)
Definition typography_at (child : Node.t) : list string :=
  match text_of child with
  | Some _ => [Json.stringify fmt_fraction (getTextStyle fmt_fraction child)]
  | None => []
  end.

(** Every solid fill or stroke colour met by [extractCardSpecs], in
    the order met: the fill and the stroke of the root, then the fill
    of each descendant. *)
Definition color_occurrences (doc : Node.t) : list string :=
  color_at (Node.fills doc) ++ color_at (Node.strokes doc)
  ++ flat_map (fun p => color_at (Node.fills (fst p))) (preorder 0 doc).

(** [visit] at one entry of a pre-order listing. *)
Definition visit_pair (specs : Specs.t) (p : Node.t * nat) : Specs.t :=
  visit fmt_fraction specs (fst p) (snd p).

(** The entry pushed for one entry of a pre-order listing. *)
Definition entry (p : Node.t * nat) : ChildSpec.t :=
  childSpec fmt_fraction (fst p) (snd p).

(** Every text style met, in the order met. *)
Definition typography_occurrences (doc : Node.t) : list string :=
  flat_map (fun p => typography_at (fst p)) (preorder 0 doc).
End Occurrences.
End Walk.

(** Induction on a node from its children. *)
Section NodeInduction.
Variable P : Node.t -> Prop.
Hypothesis step : forall n, Forall P (Node.kids n) -> P n.

Fixpoint Node_kids_ind (n : Node.t) : P n :=
  step n
    match n as m return Forall P (Node.kids m) with
    | Node.make _ _ _ _ _ _ _ _ _ _ (Some l) =>
        (fix all (l : list Node.t) : Forall P l :=
           match l with
           | [] => Forall_nil P
           | c :: rest => Forall_cons c (Node_kids_ind c) (all rest)
           end) l
    | Node.make _ _ _ _ _ _ _ _ _ _ None => Forall_nil P
    end.
End NodeInduction.

(** ** Reading colour strings back *)

Module ColorText.
Import JsString.








End ColorText.

(** A colour of the Figma API: every channel between 0 and 1. *)
Module Channel.
Inductive t := Red | Green | Blue.

Definition unit (v : Q) : Prop := (0 <= v)%Q /\ (v <= 1)%Q.



(** One step of an eight-bit channel. *)
Definition step : Q := (1 # 255)%Q.
End Channel.

(** ** The end-to-end scenario *)

Module Scenario.
Definition white : Color.t := Color.make 1 1 1 (Some 1%Q).

Definition rectangle : Node.t :=
  Node.make "1:2" "Bar" "RECTANGLE"
    (Some (Rectangle.make (Some 10%Q) (Some 10%Q) (Some 100%Q) (Some 20%Q)))
    None None None None None None None.

Definition label : Node.t :=
  Node.make "1:3" "Label" "TEXT" None None None None None
    (Some (TypeStyle.make None (Some 24%Q) (Some 700%Q) None None))
    (Some "Balance") None.

Definition root : Node.t :=
  Node.make "1:1" "Balance Card" "FRAME" None (Some 16%Q)
    (Some [Paint.make "SOLID" (Some white)]) None None None None
    (Some [rectangle; label]).

(** A network that refuses the first node of the batch with status 403
    and serves the scenario document for the second. *)
Definition network (url : string) : Http.result Batch.body :=
  if String.eqb url "https://api.figma.com/v1/files/zksBuILVajtp60Oca28Vnl/nodes?ids=21:5360"
  then Http.Response true 200 "OK" EmptyString
         (inr (Some [("21:5360", Some root)]))
  else Http.Response false 403 "Forbidden" EmptyString (inl "Unexpected end of JSON input").

Definition clock (k : nat) : string := "2025-01-01T00:00:00.000Z".

(** The environment and the arguments of a run of the exporter. *)
Definition env (name : string) : option string :=
  if String.eqb name "FIGMA_PERSONAL_ACCESS_TOKEN" then Some "figd_token"
  else if String.eqb name "FIGMA_FILE_KEY" then Some "KEY"
  else None.

Definition args : FigmaFetch.Args := FigmaFetch.makeArgs None false None.

Definition served (name : string) : JsonValue.t :=
  JsonValue.Object [("name", JsonValue.String name)].

Definition forbidden : Http.result JsonValue.t :=
  Http.Response false 403 "Forbidden" "denied" (inl "Unexpected token d").

(** A network that refuses one endpoint of the file with status 403
    and serves every other. *)
Definition refusing (refused : string) (rq : FigmaFetch.request)
  : Http.result JsonValue.t :=
  if String.eqb (FigmaFetch.endpoint rq) refused then forbidden
  else Http.Response true 200 "OK" EmptyString
         (inr (served (FigmaFetch.endpoint rq))).

Definition settles_at (index : nat) : nat := index.

(** A frame two levels deep: a group holding the label, then the bar;
    the group and the bar carry the same solid fill. *)
Definition group : Node.t :=
  Node.make "2:1" "Group" "GROUP" None None
    (Some [Paint.make "SOLID" (Some white)]) None None None None
    (Some [label]).

Definition filled_bar : Node.t :=
  Node.make "2:2" "Bar" "RECTANGLE" None None
    (Some [Paint.make "SOLID" (Some white)]) None None None None None.

Definition nested_root : Node.t :=
  Node.make "2:0" "Nested" "FRAME" None None None None None None None
    (Some [group; filled_bar]).

Definition clock0 : string := clock 0.
End Scenario.

(** ** scripts/fetch-node.js *)

Module FetchNode.
Import JsString.

(** The effects of the script, standard output left out:
    - [Get url token]: [fetch(url, {headers: {'X-Figma-Token': token}})];
    - [WriteFile path data]:
      [fs.writeFileSync(path, JSON.stringify(data, null, 2))];
    - [ConsoleError message]: the [console.error] of line 40, whose
      second argument is [message]. *)
Inductive event :=
| Get (url : string) (token : option string)
| WriteFile (path : string) (data : JsonValue.t)
| ConsoleError (message : string).

Definition is_write (e : event) : bool :=
  match e with
  | WriteFile _ _ => true
  | _ => false
  end.

Definition writes (tr : list event) : list event := filter is_write tr.

Section Script.
Local Open Scope io_scope.

(** [process.env.FIGMA_TOKEN] *)
Variable FIGMA_TOKEN : option string.
(** [process.argv[2]] *)
Variable argv2 : option string.
(** What the network answers to a GET of a URL. *)
Variable fetch : string -> Http.result JsonValue.t.

Definition FILE_ID : string := "zksBuILVajtp60Oca28Vnl".

Definition NODE_ID : string :=
  match argv2 with
  | Some v => if truthy v then v else "301:3861"
  | None => "301:3861"
  end.

Definition url : string :=
  "https://api.figma.com/v1/files/" ++ FILE_ID ++ "/nodes?ids=" ++ NODE_ID.

(** [data.nodes[NODE_ID]] of line 26: reading [nodes] of [null], or a
    property of an absent or [null] [nodes], throws a [TypeError];
    every other reading gives a value or [undefined], which the
    script only prints: the caller below drops it. *)
Definition node_of (data : JsonValue.t) : IO.t event (option JsonValue.t) :=
  match data with
  | JsonValue.Null =>
      IO.throw "Cannot read properties of null (reading 'nodes')"
  | _ =>
      match JsonValue.prop "nodes" data with
      | None =>
          IO.throw ("Cannot read properties of undefined (reading '"
                    ++ NODE_ID ++ "')")%string
      | Some JsonValue.Null =>
          IO.throw ("Cannot read properties of null (reading '"
                    ++ NODE_ID ++ "')")%string
      | Some nodes => IO.ret (JsonValue.prop NODE_ID nodes)
      end
  end.

(** Lines 8-37.  The summary of lines 27-34 only prints. *)
Definition getNodeDetails : IO.t event JsonValue.t :=
  IO.emit (Get url FIGMA_TOKEN) ;;;
  match fetch url with
  | Http.Failed message => IO.throw message
  | Http.Response ok status statusText _ json =>
      if ok then
        match json with
        | inl message => IO.throw message
        | inr data =>
            IO.emit (WriteFile "./figma-node-data.json" data) ;;;
            _ <- node_of data ;;
            IO.ret data
        end
      else IO.throw ("Figma API error: " ++ JsNumber.Z_toString status
                     ++ " " ++ statusText)%string
  end.

(** Lines 39-42: the trace and the exit code. *)
Definition script : list event * Z :=
  match getNodeDetails with
  | (tr, inl message) => (tr ++ [ConsoleError message], 1%Z)
  | (tr, inr _) => (tr, 0%Z)
  end.
End Script.
End FetchNode.

(** ** Further notions the properties are stated with *)

Module Text.
Import JsString.

(** Every code unit of a string satisfies a test. *)
Fixpoint all (test : ascii -> bool) (s : string) : bool :=
  match s with
  | EmptyString => true
  | String c rest => test c && all test rest
  end.

Definition is_comma (c : ascii) : bool := (code c =? 44)%N.

Definition comma_free (s : string) : bool :=
  all (fun c => negb (is_comma c)) s.

(** No white space at the head. *)
Definition headed (s : string) : bool :=
  match s with
  | EmptyString => true
  | String c _ => negb (is_space c)
  end.

(** A node id as the exporter accepts it: not empty, no comma, no
    white space at either end. *)
Definition is_id (s : string) : bool :=
  truthy s && comma_free s && String.eqb (FigmaFetch.trim s) s.

(** [idsArg.split(',').map(s => s.trim()).filter(Boolean)], the
    expression of lines 111-114 of figma-fetch.js. *)
Definition node_ids (idsArg : string) : list string :=
  filter truthy (map FigmaFetch.trim (FigmaFetch.split_comma idsArg)).
End Text.

Module Html.
Import JsString.

(** The line of the HTML skeleton for a descendant [n] at nesting
    depth [d], read off the document. *)
Definition line (p : Node.t * nat) : string :=
  let class := slugify (Node.name (fst p)) in
  repeat "  " (snd p + 1)
  ++ match text_of (fst p) with
     | Some txt =>
         "<span class=" ++ Json.quote ++ class ++ Json.quote ++ ">"
         ++ txt ++ "</span>" ++ nl
     | None =>
         "<div class=" ++ Json.quote ++ class ++ Json.quote ++ "></div>" ++ nl
     end.
End Html.

Module TextStyleKeys.
Definition all : list string :=
  ["fontFamily"; "fontSize"; "fontWeight"; "letterSpacing"; "lineHeight"].
End TextStyleKeys.

Module Frame.
(** The fields of a specification that the walk never assigns. *)
Definition untouched (s : Specs.t) :=
  (Specs.id s, Specs.name s, Specs.type s, Specs.dimensions s,
   Specs.styles s, Specs.text s).

(** [doc.strokes && doc.strokes.length > 0] *)
Definition has_strokes (doc : Node.t) : bool :=
  match Node.strokes doc with
  | Some (_ :: _) => true
  | _ => false
  end.
End Frame.

(** Documents and answers the properties are tried on. *)
Module Samples.
(** A frame whose fill is a solid paint without a colour, holding a
    rectangle with the same fill. *)
Definition colourless : Paint.t := Paint.make "SOLID" None.

Definition hollow_bar : Node.t :=
  Node.make "4:2" "Hollow Bar" "RECTANGLE" None None
    (Some [colourless]) None None None None None.

Definition hollow : Node.t :=
  Node.make "4:1" "Hollow" "FRAME" None None
    (Some [colourless]) None None None None (Some [hollow_bar]).
End Samples.

Module BatchTrace.
(** The specification files written along a trace, in order. *)
Definition spec_files (tr : list Batch.event) : list SpecFile.t :=
  flat_map (fun e => match e with
                     | Batch.WriteSpec _ content => [content]
                     | _ => []
                     end) tr.

(** What holds of a write of a specification file: its path is the
    output directory, the card name and the suffix; the card name is
    the slug of the name of the specification, hence a string over
    [a-z0-9-]; the design tokens are the two sets of the
    specification. *)
Definition well_named (e : Batch.event) : Prop :=
  match e with
  | Batch.WriteSpec path content =>
      path = ("./figma-extract/" ++ SpecFile.cardName content ++ "-specs.json")%string
      /\ SpecFile.cardName content
         = JsString.slugify (Specs.name (SpecFile.specifications content))
      /\ JsString.all_slug (SpecFile.cardName content) = true
      /\ SpecFile.colors (SpecFile.designTokens content)
         = Specs.colors (SpecFile.specifications content)
      /\ SpecFile.typography (SpecFile.designTokens content)
         = Specs.typography (SpecFile.specifications content)
  | _ => True
  end.
End BatchTrace.

Module MoreSamples.
(** A network that answers every request with a body that has the
    scenario document for the second node of the batch only. *)
Definition partial (url : string) : Http.result Batch.body :=
  Http.Response true 200 "OK" EmptyString
    (inr (Some [("21:5360", Some Scenario.root); ("21:5361", None)])).

(** A network whose bodies have no [nodes]. *)
Definition bare (url : string) : Http.result Batch.body :=
  Http.Response true 200 "OK" EmptyString (inr None).
End MoreSamples.

Module ExporterRun.
Import JsString.

(** An optional string that counts as given: present and not empty. *)
Definition given (v : option string) : bool :=
  match v with
  | Some s => truthy s
  | None => false
  end.

Definition request (token endpoint : string) : FigmaFetch.request :=
  FigmaFetch.makeRequest endpoint token [].

(** The five requests of the join, in the order of the array. *)
Definition gets (token fileKey : string) : list FigmaFetch.event :=
  [ FigmaFetch.Get (request token ("/files/" ++ fileKey));
    FigmaFetch.Get (request token ("/files/" ++ fileKey ++ "/styles"));
    FigmaFetch.Get (request token ("/files/" ++ fileKey ++ "/components"));
    FigmaFetch.Get (request token ("/files/" ++ fileKey ++ "/variables"));
    FigmaFetch.Get (request token ("/files/" ++ fileKey ++ "/comments")) ].

(** The path of an output file. *)
Definition path (outDir stem fileKey : string) : string :=
  outDir ++ "/" ++ stem ++ "-" ++ fileKey ++ ".json".

(** What is written to the variables file: the body, or the object
    that stands for the failure. *)
Definition variables_payload (r : string + JsonValue.t) : JsonValue.t :=
  match r with
  | inl message => JsonValue.Object [("error", JsonValue.String message)]
  | inr v => v
  end.


End ExporterRun.

Module ExporterSamples.
(** A network that serves every endpoint. *)
Definition serving (rq : FigmaFetch.request) : Http.result JsonValue.t :=
  Http.Response true 200 "OK" EmptyString
    (inr (Scenario.served (FigmaFetch.endpoint rq))).

(** A network whose body for the file itself is [null]. *)
Definition null_file (rq : FigmaFetch.request) : Http.result JsonValue.t :=
  if String.eqb (FigmaFetch.endpoint rq) "/files/KEY"
  then Http.Response true 200 "OK" "null" (inr JsonValue.Null)
  else serving rq.

Definition no_env (name : string) : option string := None.

Definition everywhere_forbidden (rq : FigmaFetch.request) : Http.result JsonValue.t :=
  Scenario.forbidden.

Definition token_only (name : string) : option string :=
  if String.eqb name "FIGMA_PERSONAL_ACCESS_TOKEN" then Some "figd_token" else None.

(** [--fileKey CLI --nodes --ids " 1:2, ,3:4 "] *)
Definition with_nodes : FigmaFetch.Args :=
  FigmaFetch.makeArgs (Some "CLI") true (Some " 1:2, ,3:4 ").

(** [--nodes --ids " , "] *)
Definition blank_nodes : FigmaFetch.Args :=
  FigmaFetch.makeArgs None true (Some " , ").
End ExporterSamples.

Module Agree.
(** Two computations perform the same events and end alike: both
    throw, or both return the same value. *)
Definition runs {E A} (a b : IO.t E A) : Prop :=
  IO.events a = IO.events b
  /\ match IO.outcome a, IO.outcome b with
     | inl _, inl _ => True
     | inr x, inr y => x = y
     | _, _ => False
     end.
End Agree.

Module NodeExport.
(** [args.ids || process.env.FIGMA_NODE_IDS || ''] *)
Definition idsArg (env : string -> option string) (args : FigmaFetch.Args) : string :=
  match FigmaFetch.or_string (FigmaFetch.ids args) (env "FIGMA_NODE_IDS") with
  | Some s => s
  | None => EmptyString
  end.

(** The request of [fetchNodes]. *)
Definition request (token fileKey : string) (nodeIds : list string)
  : FigmaFetch.request :=
  FigmaFetch.makeRequest ("/files/" ++ fileKey ++ "/nodes") token
    [("ids", FigmaFetch.join_comma nodeIds)].
End NodeExport.

Module FetchNodeRun.


Definition refusing (url : string) : Http.result JsonValue.t := Scenario.forbidden.
End FetchNodeRun.

Module Weight.
(** A text node with the given style. *)
Definition text_node (style : TypeStyle.t) : Node.t :=
  Node.make "5:1" "Label" "TEXT" None None None None None
    (Some style) (Some "Balance") None.

(** A style with the given font weight. *)
Definition with_weight (s : TypeStyle.t) (w : option Q) : TypeStyle.t :=
  TypeStyle.make (TypeStyle.fontFamily s) (TypeStyle.fontSize s) w
    (TypeStyle.letterSpacing s) (TypeStyle.lineHeightPx s).
End Weight.

(** * Properties *)

(** ** The model at work *)

Example slug_of_name :
  JsString.slugify "Balance  Card (v2)!" = "balance-card-v2".
Proof. reflexivity. Qed.

Example css_of_half_transparent_orange :
  figmaColorToCSS JsNumber.decimal (Some (Color.make 1 (1 # 2) 0 (Some (1 # 4)%Q)))
  = "rgba(255, 128, 0, 0.25)".
Proof. reflexivity. Qed.

Example token_of_gray_500 :
  mapToDesignToken JsNumber.decimal
    (Some (Color.make (107 # 255) (114 # 255) (128 # 255) None))
  = "var(--gray-500)".
Proof. reflexivity. Qed.

Example nested_walk :
  option_map (fun specs =>
                (map (fun c => (ChildSpec.id c, ChildSpec.depth c)) (Specs.children specs),
                 Specs.colors specs))
             (extractCardSpecs JsNumber.decimal (Some Scenario.nested_root))
  = Some ([("2:1", 0); ("1:3", 1); ("2:2", 0)], ["rgba(255, 255, 255, 1)"]).
Proof. reflexivity. Qed.

Example html_of_scenario :
  option_map generateHTMLStructure
             (extractCardSpecs JsNumber.decimal (Some Scenario.root))
  = Some ("<div class=" ++ Json.quote ++ "balance-card" ++ Json.quote ++ ">" ++ nl
          ++ "  <div class=" ++ Json.quote ++ "bar" ++ Json.quote ++ "></div>" ++ nl
          ++ "  <span class=" ++ Json.quote ++ "label" ++ Json.quote ++ ">Balance</span>" ++ nl
          ++ "</div>")%string.
Proof. reflexivity. Qed.

(** ** The name slugifier *)

Section SlugFacts.
Import JsString.

Lemma slug_char_cases c :
  is_slug_char c = true -> lower_char c = c /\ is_space c = false.
Proof.
  destruct c as [[] [] [] [] [] [] [] []]; vm_compute; intuition congruence.
Qed.

Lemma strip_all_slug s : all_slug (strip_non_slug s) = true.
Proof.
  induction s as [|c r IH]; simpl; [reflexivity|].
  destruct (is_slug_char c) eqn:E; simpl; [rewrite E|]; auto.
Qed.

Lemma lower_fixes_slug s : all_slug s = true -> toLowerCase s = s.
Proof.
  induction s as [|c r IH]; simpl; [reflexivity|].
  intros H; apply andb_prop in H as [Hc Hr].
  apply slug_char_cases in Hc as [-> _]. now rewrite IH.
Qed.

Lemma runs_fix_slug s b : all_slug s = true -> replace_space_runs b s = s.
Proof.
  revert b; induction s as [|c r IH]; simpl; intros b; [reflexivity|].
  intros H; apply andb_prop in H as [Hc Hr].
  apply slug_char_cases in Hc as [_ ->]. now rewrite IH.
Qed.

Lemma strip_fixes_slug s : all_slug s = true -> strip_non_slug s = s.
Proof.
  induction s as [|c r IH]; simpl; [reflexivity|].
  intros H; apply andb_prop in H as [Hc Hr].
  rewrite Hc. now rewrite IH.
Qed.

Lemma slugify_all_slug s : all_slug (slugify s) = true.
Proof. apply strip_all_slug. Qed.

End SlugFacts.

(** C8. The name slugifier is idempotent: for every name, slugifying the
    slug of the name gives that slug back unchanged. *)
Theorem slugify_idempotent (name : string) :
  JsString.slugify (JsString.slugify name) = JsString.slugify name.
Proof.
  pose proof (slugify_all_slug name) as H.
  unfold JsString.slugify at 1.
  rewrite (lower_fixes_slug _ H), (runs_fix_slug _ false H).
  now apply strip_fixes_slug.
Qed.

(** ** The tree walker *)

Section WalkFacts.
Variable fmt : Q -> string.

Lemma traverse_kids specs n depth :
  traverseChildren fmt specs n depth =
  fold_left (fun s c => traverseChildren fmt (visit fmt s c depth) c (S depth))
            (Node.kids n) specs.
Proof. destruct n as [? ? ? ? ? ? ? ? ? ? [l|]]; reflexivity. Qed.

Lemma preorder_kids n depth :
  Walk.preorder depth n =
  flat_map (fun c => (c, depth) :: Walk.preorder (S depth) c) (Node.kids n).
Proof. destruct n as [? ? ? ? ? ? ? ? ? ? [l|]]; reflexivity. Qed.

(** The recursive walk is the left fold of [visit] over the pre-order
    listing. *)
Lemma traverse_is_fold n :
  forall specs depth,
    traverseChildren fmt specs n depth =
    fold_left (Walk.visit_pair fmt) (Walk.preorder depth n) specs.
Proof.
  induction n as [n IH] using Node_kids_ind; intros specs depth.
  rewrite traverse_kids, preorder_kids.
  revert specs; induction IH as [|c rest Hc _ IHrest]; intros specs.
  - reflexivity.
  - simpl. rewrite fold_left_app. simpl.
    rewrite Hc. apply IHrest.
Qed.
End WalkFacts.

Section SetFacts.
Lemma has_In s v : JsSet.has s v = true <-> In v s.
Proof.
  induction s as [|y rest IH]; simpl.
  - split; [discriminate | tauto].
  - rewrite orb_true_iff, IH, String.eqb_eq. intuition congruence.
Qed.

Lemma add_In s v w : In w (JsSet.add s v) <-> In w s \/ w = v.
Proof.
  unfold JsSet.add. destruct (JsSet.has s v) eqn:E.
  - apply has_In in E. intuition congruence.
  - rewrite in_app_iff. simpl. intuition congruence.
Qed.

Lemma add_NoDup s v : NoDup s -> NoDup (JsSet.add s v).
Proof.
  intros H. unfold JsSet.add. destruct (JsSet.has s v) eqn:E; [assumption|].
  apply NoDup_app; [assumption | repeat constructor; intros [] | ].
  intros w Hw [<-|[]]. apply has_In in Hw. congruence.
Qed.

Lemma add_length s v : List.length (JsSet.add s v) <= S (List.length s).
Proof.
  unfold JsSet.add. destruct (JsSet.has s v); [lia|].
  rewrite length_app. simpl. lia.
Qed.

Lemma add_all_In l : forall s w,
  In w (fold_left JsSet.add l s) <-> In w s \/ In w l.
Proof.
  induction l as [|v rest IH]; intros s w; simpl; [tauto|].
  rewrite IH, add_In. intuition congruence.
Qed.

Lemma add_all_NoDup l : forall s, NoDup s -> NoDup (fold_left JsSet.add l s).
Proof.
  induction l as [|v rest IH]; intros s H; simpl; [assumption|].
  apply IH, add_NoDup, H.
Qed.

Lemma add_all_length l : forall s,
  List.length (fold_left JsSet.add l s) <= List.length s + List.length l.
Proof.
  induction l as [|v rest IH]; intros s; simpl; [lia|].
  specialize (IH (JsSet.add s v)). pose proof (add_length s v). lia.
Qed.
End SetFacts.

Section FoldFacts.
Variable fmt : Q -> string.

Lemma record_color_children s paints :
  Specs.children (record_color fmt s paints) = Specs.children s.
Proof. unfold record_color. now destruct (first_solid paints). Qed.

Lemma record_color_typography s paints :
  Specs.typography (record_color fmt s paints) = Specs.typography s.
Proof. unfold record_color. now destruct (first_solid paints). Qed.

Lemma record_color_colors s paints :
  Specs.colors (record_color fmt s paints) =
  fold_left JsSet.add (Walk.color_at fmt paints) (Specs.colors s).
Proof.
  unfold record_color, Walk.color_at. now destruct (first_solid paints).
Qed.

Lemma visit_children s p :
  Specs.children (Walk.visit_pair fmt s p) = Specs.children s ++ [Walk.entry fmt p].
Proof.
  unfold Walk.visit_pair, Walk.entry, visit. simpl.
  destruct (text_of (fst p)); simpl; now rewrite record_color_children.
Qed.

Lemma visit_colors s p :
  Specs.colors (Walk.visit_pair fmt s p) =
  fold_left JsSet.add (Walk.color_at fmt (Node.fills (fst p))) (Specs.colors s).
Proof.
  unfold Walk.visit_pair, visit. simpl.
  destruct (text_of (fst p)); simpl; now rewrite record_color_colors.
Qed.

Lemma visit_typography s p :
  Specs.typography (Walk.visit_pair fmt s p) =
  fold_left JsSet.add (Walk.typography_at fmt (fst p)) (Specs.typography s).
Proof.
  unfold Walk.visit_pair, Walk.typography_at, visit. simpl.
  destruct (text_of (fst p)); simpl; now rewrite record_color_typography.
Qed.

Lemma fold_visit_children l : forall s,
  Specs.children (fold_left (Walk.visit_pair fmt) l s) =
  Specs.children s ++ map (Walk.entry fmt) l.
Proof.
  induction l as [|p rest IH]; intros s; simpl.
  - now rewrite app_nil_r.
  - rewrite IH, visit_children, <- app_assoc. reflexivity.
Qed.

Lemma fold_visit_colors l : forall s,
  Specs.colors (fold_left (Walk.visit_pair fmt) l s) =
  fold_left JsSet.add
    (flat_map (fun p => Walk.color_at fmt (Node.fills (fst p))) l) (Specs.colors s).
Proof.
  induction l as [|p rest IH]; intros s; simpl; [reflexivity|].
  now rewrite IH, visit_colors, fold_left_app.
Qed.

Lemma fold_visit_typography l : forall s,
  Specs.typography (fold_left (Walk.visit_pair fmt) l s) =
  fold_left JsSet.add
    (flat_map (fun p => Walk.typography_at fmt (fst p)) l) (Specs.typography s).
Proof.
  induction l as [|p rest IH]; intros s; simpl; [reflexivity|].
  now rewrite IH, visit_typography, fold_left_app.
Qed.
End FoldFacts.

Section PreorderFacts.
Lemma descendants_kids n :
  Node.descendants n =
  list_sum (map (fun c => S (Node.descendants c)) (Node.kids n)).
Proof.
  destruct n as [? ? ? ? ? ? ? ? ? ? [l|]]; [|reflexivity].
  unfold Node.kids; simpl.
  induction l as [|c rest IH]; simpl; [reflexivity|]. now rewrite IH.
Qed.

Lemma preorder_length n : forall depth,
  List.length (Walk.preorder depth n) = Node.descendants n.
Proof.
  induction n as [n IH] using Node_kids_ind; intros depth.
  rewrite preorder_kids, descendants_kids.
  induction IH as [|c rest Hc _ IHrest]; simpl; [reflexivity|].
  now rewrite length_app, Hc, IHrest.
Qed.

Lemma nested_under root kid j c :
  In kid (Node.kids root) -> Walk.nested kid j c -> Walk.nested root (S j) c.
Proof.
  intros Hkid H. induction H as [c Hc | p d c _ IH Hc].
  - eapply Walk.nested_deeper; [apply Walk.nested_child, Hkid | exact Hc].
  - eapply Walk.nested_deeper; [exact IH | exact Hc].
Qed.

Lemma preorder_nested m : forall k c d,
  In (c, d) (Walk.preorder k m) -> exists j, d = k + j /\ Walk.nested m j c.
Proof.
  induction m as [m IH] using Node_kids_ind; intros k c d.
  rewrite preorder_kids, in_flat_map. intros (kid & Hkid & Hin).
  rewrite Forall_forall in IH.
  destruct Hin as [E | Hin].
  - inversion E; subst. exists 0. split; [lia | now apply Walk.nested_child].
  - destruct (IH kid Hkid _ _ _ Hin) as (j & -> & Hj).
    exists (S j). split; [lia | eapply nested_under; eassumption].
Qed.

(** A child is listed one level below its parent. *)
Lemma preorder_step m : forall k p d c,
  In (p, d) (Walk.preorder k m) -> In c (Node.kids p) ->
  In (c, S d) (Walk.preorder k m).
Proof.
  induction m as [m IH] using Node_kids_ind; intros k p d c.
  rewrite preorder_kids, !in_flat_map. intros (kid & Hkid & Hin) Hc.
  rewrite Forall_forall in IH.
  exists kid. split; [assumption|]. right.
  destruct Hin as [E | Hin].
  - inversion E; subst. rewrite preorder_kids, in_flat_map.
    exists c. split; [assumption | now left].
  - eapply IH; eassumption.
Qed.

(** A descendant of a listed node is listed strictly deeper. *)
Lemma preorder_descend m k p d j c :
  In (p, d) (Walk.preorder k m) -> Walk.nested p j c ->
  In (c, d + S j) (Walk.preorder k m).
Proof.
  intros Hp H. induction H as [c Hc | q j c _ IH Hc].
  - replace (d + 1) with (S d) by lia. eapply preorder_step; eassumption.
  - replace (d + S (S j)) with (S (d + S j)) by lia.
    eapply preorder_step; eassumption.
Qed.

Lemma nested_preorder root d n :
  Walk.nested root d n -> In (n, d) (Walk.preorder 0 root).
Proof.
  induction 1 as [c Hc | p d c _ IH Hc].
  - rewrite preorder_kids, in_flat_map. exists c. split; [assumption | now left].
  - eapply preorder_step; eassumption.
Qed.
End PreorderFacts.

Section ExtractFacts.
Variable fmt : Q -> string.

(** What [extractCardSpecs] holds before the walk starts. *)
Lemma extract_unfold doc :
  exists start,
    extractCardSpecs fmt (Some doc)
    = Some (fold_left (Walk.visit_pair fmt) (Walk.preorder 0 doc) start)
    /\ Specs.children start = []
    /\ Specs.typography start = []
    /\ Specs.colors start
       = fold_left JsSet.add
           (Walk.color_at fmt (Node.fills doc) ++ Walk.color_at fmt (Node.strokes doc)) [].
Proof.
  eexists. split; [|split; [|split]].
  - unfold extractCardSpecs. rewrite traverse_is_fold. reflexivity.
  - now rewrite !record_color_children.
  - now rewrite !record_color_typography.
  - now rewrite fold_left_app, !record_color_colors.
Qed.
End ExtractFacts.

(** C2. For every document, the walker appends exactly one entry per
    descendant to the flat children list, in depth-first pre-order; the
    depth field of an entry is the nesting depth of its node, the
    children of the root being at depth 0; a node [j] levels below the
    children of a recorded node is recorded [j + 1] levels deeper, so
    depths never decrease down a path of the traversal. *)
Theorem walker_flattens_preorder (fmt : Q -> string) (doc : Node.t) :
  exists specs,
    extractCardSpecs fmt (Some doc) = Some specs
    /\ Specs.children specs = map (Walk.entry fmt) (Walk.preorder 0 doc)
    /\ List.length (Specs.children specs) = Node.descendants doc
    /\ map ChildSpec.depth (Specs.children specs) = map snd (Walk.preorder 0 doc)
    /\ (forall n d, In (n, d) (Walk.preorder 0 doc) <-> Walk.nested doc d n)
    /\ (forall p d j c, In (p, d) (Walk.preorder 0 doc) -> Walk.nested p j c ->
                        In (c, d + S j) (Walk.preorder 0 doc)).
Proof.
  destruct (extract_unfold fmt doc) as (start & E & Hc & _ & _).
  eexists. split; [exact E|].
  assert (Hl : Specs.children (fold_left (Walk.visit_pair fmt) (Walk.preorder 0 doc) start)
               = map (Walk.entry fmt) (Walk.preorder 0 doc))
    by now rewrite fold_visit_children, Hc.
  rewrite Hl. repeat split.
  - now rewrite length_map, preorder_length.
  - rewrite map_map. reflexivity.
  - intros H. destruct (preorder_nested _ _ _ _ H) as (j & -> & Hj). exact Hj.
  - apply nested_preorder.
  - intros p d j c. apply preorder_descend.
Qed.

(** C9. After [extractCardSpecs] the colour set holds no more values
    than solid fill and stroke colours were met, the typography set no
    more than text styles were met; neither set repeats a value, and a
    value is in a set exactly when it was met, so a style repeated
    across siblings is recorded once. *)
Theorem deduplicated_sets_bounded (fmt : Q -> string) (doc : Node.t) :
  exists specs,
    extractCardSpecs fmt (Some doc) = Some specs
    /\ JsSet.size (Specs.colors specs) <= List.length (Walk.color_occurrences fmt doc)
    /\ JsSet.size (Specs.typography specs)
       <= List.length (Walk.typography_occurrences fmt doc)
    /\ NoDup (Specs.colors specs)
    /\ NoDup (Specs.typography specs)
    /\ (forall v, In v (Specs.colors specs) <-> In v (Walk.color_occurrences fmt doc))
    /\ (forall v, In v (Specs.typography specs)
                  <-> In v (Walk.typography_occurrences fmt doc)).
Proof.
  destruct (extract_unfold fmt doc) as (start & E & _ & Ht & Hc).
  eexists. split; [exact E|].
  rewrite fold_visit_colors, fold_visit_typography, Ht, Hc, <- fold_left_app.
  unfold JsSet.size, Walk.color_occurrences, Walk.typography_occurrences.
  rewrite <- app_assoc.
  repeat split.
  - apply (add_all_length _ []).
  - apply (add_all_length _ []).
  - apply add_all_NoDup; constructor.
  - apply add_all_NoDup; constructor.
  - intros H. apply add_all_In in H as [[]|H]. exact H.
  - intros H. apply add_all_In. now right.
  - intros H. apply add_all_In in H as [[]|H]. exact H.
  - intros H. apply add_all_In. now right.
Qed.

(** ** The colour resolver *)

Section ChannelFacts.






End ChannelFacts.

Section ResolverFacts.
Variable fmt : Q -> string.




Lemma get_some {A} key (obj : list (string * A)) v :
  JsObject.get key obj = Some v -> In (key, v) obj.
Proof.
  induction obj as [|[k w] rest IH]; simpl; [discriminate|].
  destruct (String.eqb_spec key k) as [->|_].
  - intros [= ->]. now left.
  - intros H. right. now apply IH.
Qed.


(** Every token of the table is a non-empty string, so [||] keeps it. *)
Lemma token_by_table c :
  mapToDesignToken fmt (Some c)
  = match JsObject.get (hex c) colorMap with
    | Some token => token
    | None => figmaColorToCSS fmt (Some c)
    end.
Proof.
  unfold mapToDesignToken.
  destruct (JsObject.get (hex c) colorMap) as [token|] eqn:E; [|reflexivity].
  apply get_some in E.
  repeat (destruct E as [E|E]; [inversion E; subst; reflexivity|]).
  destruct E.
Qed.

End ResolverFacts.

Section RgbaFacts.
Local Open Scope string_scope.


End RgbaFacts.





(** C7. With no colour given, [mapToDesignToken] answers the token of
    the primary text colour, [var(--fg-text)]; that token is a fixed
    default and not a resolved colour: no colour object resolves to it. *)
Theorem missing_color_is_text_token (fmt : Q -> string) :
  mapToDesignToken fmt None = "var(--fg-text)"
  /\ forall c, mapToDesignToken fmt (Some c) <> "var(--fg-text)".
Proof.
  split; [reflexivity|].
  intros c. rewrite token_by_table.
  destruct (JsObject.get (hex c) colorMap) as [token|] eqn:E.
  - apply get_some in E.
    repeat (destruct E as [E|E];
            [apply pair_equal_spec in E as [_ <-]; discriminate|]).
    destruct E.
  - unfold figmaColorToCSS. discriminate.
Qed.

(** C10. Token resolution does not look at alpha: two colours with the
    same r, g, b and any two alphas have the same hex key; when the key
    is in the table both resolve to its token, so a half-transparent
    white becomes the opaque [var(--white)]; alpha shows only in the
    [rgba] fallback of a colour without a key. *)
Theorem token_resolution_ignores_alpha (fmt : Q -> string)
        (r g b : Q) (a1 a2 : option Q) :
  let c1 := Color.make r g b a1 in
  let c2 := Color.make r g b a2 in
  let raw (a : option Q) : string :=
    ("rgba(" ++ JsNumber.Z_toString (channel r) ++ ", "
             ++ JsNumber.Z_toString (channel g) ++ ", "
             ++ JsNumber.Z_toString (channel b) ++ ", "
             ++ show fmt (match a with Some v => v | None => 1%Q end) ++ ")")%string in
  hex c1 = hex c2
  /\ match JsObject.get (hex c1) colorMap with
     | Some token =>
         mapToDesignToken fmt (Some c1) = token
         /\ mapToDesignToken fmt (Some c2) = token
     | None =>
         mapToDesignToken fmt (Some c1) = raw a1
         /\ mapToDesignToken fmt (Some c2) = raw a2
     end
  /\ mapToDesignToken fmt (Some (Color.make 1 1 1 (Some (1 # 2)%Q))) = "var(--white)"
  /\ mapToDesignToken fmt (Some (Color.make 0 0 0 (Some (1 # 2)%Q)))
     = ("rgba(0, 0, 0, " ++ fmt (1 # 2)%Q ++ ")")%string
  /\ mapToDesignToken fmt (Some (Color.make 0 0 0 (Some 1%Q))) = "rgba(0, 0, 0, 1)".
Proof.
  intros c1 c2 raw.
  assert (Hhex : hex c1 = hex c2) by reflexivity.
  split; [exact Hhex|]. split; [|repeat split].
  rewrite (token_by_table fmt c1), (token_by_table fmt c2), <- Hhex.
  destruct (JsObject.get (hex c1) colorMap); split; reflexivity.
Qed.

(** ** The generated style sheet *)

(** C1. On the scenario (a root of corner radius 16 with one solid white
    fill, a plain rectangle at 10,10 of 100 by 20 and a text node
    "Balance" of font size 24 and weight 700) the specification has two
    children and the rule block of the root contains
    [border-radius: 16px;]; the rule block of the text child carries the
    names of the text-style properties as they are, [fontSize: 24px;]
    and [fontWeight: 700;], and the style sheet contains neither
    [font-size: 24px;] nor [font-weight: 700;]. *)
Theorem scenario_style_sheet (fmt : Q -> string) :
  exists specs bar label,
    extractCardSpecs fmt (Some Scenario.root) = Some specs
    /\ Specs.children specs = [bar; label]
    /\ List.length (Specs.children specs) = 2
    /\ JsString.includes (rootBlock fmt specs) "border-radius: 16px;" = true
    /\ ChildSpec.textContent label = Some "Balance"
    /\ JsString.includes (childBlock fmt (JsString.slugify (Specs.name specs)) label)
                         "fontSize: 24px;" = true
    /\ JsString.includes (childBlock fmt (JsString.slugify (Specs.name specs)) label)
                         "fontWeight: 700;" = true
    /\ JsString.includes (generateCSSClasses fmt specs) "font-size: 24px;" = false
    /\ JsString.includes (generateCSSClasses fmt specs) "font-weight: 700;" = false.
Proof.
  do 3 eexists. split; [vm_compute; reflexivity|].
  split; [reflexivity|].
  repeat split; vm_compute; reflexivity.
Qed.

(** ** The batch driver *)

Section BatchFacts.
Variable fmt : Q -> string.
Variable token : option string.
Variable argv2 : option string.
Variable fetch : string -> Http.result Batch.body.
Variable dir_exists : bool.
Variable clock : nat -> string.

Let iteration := Batch.iteration fmt token argv2 fetch clock.
Let for_of := Batch.for_of fmt token argv2 fetch clock.
Let url_of := Batch.url_of argv2.

(** An iteration whose fetch fails requests the node, reports the
    error, writes nothing and leaves [allSpecs] as it was. *)
Lemma iteration_on_failure k nodeId allSpecs :
  Http.unsuccessful (fetch (url_of nodeId)) = true ->
  exists message,
    iteration k nodeId allSpecs
    = ([Batch.Get (url_of nodeId) token; Batch.ConsoleError nodeId message],
       inr allSpecs).
Proof.
  unfold iteration, url_of, Batch.url_of, Batch.iteration, Batch.attempt,
    Batch.getNodeDetails, Batch.figmaRequest.
  destruct (fetch _) as [message | ok status statusText text json]; simpl.
  - intros _. now exists message.
  - destruct ok; [discriminate|]. intros _. simpl. eauto.
Qed.

(** An iteration never throws; it requests its node exactly once,
    whatever the answer; its effects do not depend on [allSpecs]. *)
Lemma iteration_shape k nodeId allSpecs :
  (exists allSpecs', IO.outcome (iteration k nodeId allSpecs) = inr allSpecs')
  /\ Batch.requests (IO.events (iteration k nodeId allSpecs)) = [url_of nodeId]
  /\ IO.events (iteration k nodeId allSpecs) = IO.events (iteration k nodeId []).
Proof.
  unfold iteration, url_of, Batch.url_of, Batch.iteration, Batch.attempt,
    Batch.getNodeDetails, Batch.figmaRequest.
  destruct (fetch _) as [message | [] status statusText text [message | [nodes|]]];
    simpl; eauto.
  destruct (extractCardSpecs fmt _); simpl; eauto.
Qed.

Let iterations := Batch.iterations fmt token argv2 fetch clock.

Lemma for_of_shape nodeIds : forall k allSpecs,
  (exists allSpecs', IO.outcome (for_of k nodeIds allSpecs) = inr allSpecs')
  /\ IO.events (for_of k nodeIds allSpecs) = iterations k nodeIds.
Proof.
  induction nodeIds as [|nodeId rest IH]; intros k allSpecs; simpl.
  - eauto.
  - destruct (iteration_shape k nodeId allSpecs) as ([all' Hout] & _ & Hev).
    fold iteration. unfold iterations; simpl; fold iterations; fold iteration.
    rewrite <- Hev.
    destruct (iteration k nodeId allSpecs) as [tr res]. simpl in Hout. subst res.
    simpl. destruct (IH (S k) all') as ([all'' Hout'] & Hev').
    fold for_of. destruct (for_of (S k) rest all') as [tr' res'].
    simpl in *. subst. eauto.
Qed.

Lemma iterations_requests nodeIds : forall k,
  Batch.requests (iterations k nodeIds) = map url_of nodeIds.
Proof.
  induction nodeIds as [|nodeId rest IH]; intros k; [reflexivity|].
  unfold iterations; simpl; fold iterations; fold iteration.
  unfold Batch.requests in *. rewrite flat_map_app, IH.
  destruct (iteration_shape k nodeId []) as (_ & Hreq & _).
  unfold Batch.requests in Hreq. now rewrite Hreq.
Qed.
End BatchFacts.

(** C3. In the batch extractor a failed fetch is caught within the
    iteration of its node id: that iteration requests the node, reports
    the error and writes no file; the run still goes through every node
    id of the list, in order, each requested once, and completes with
    the summary. *)
Theorem batch_isolates_failed_fetch
        (fmt : Q -> string) (tok : string) (argv2 : option string)
        (fetch : string -> Http.result Batch.body) (dir_exists : bool)
        (clock : nat -> string) (nodeIds : list string) :
  JsString.truthy tok = true ->
  let run := Batch.extract_all fmt (Some tok) argv2 fetch dir_exists clock nodeIds in
  (exists allSpecs,
      IO.outcome run = inr allSpecs
      /\ IO.events run
         = (if dir_exists then [] else [Batch.MkDir Batch.OUTPUT_DIR])
           ++ Batch.iterations fmt (Some tok) argv2 fetch clock 0 nodeIds
           ++ [Batch.WriteSummary "./figma-extract/extraction-summary.json"
                 (Batch.summary argv2 (clock (List.length nodeIds)) allSpecs)])
  /\ Batch.requests (IO.events run) = map (Batch.url_of argv2) nodeIds
  /\ (forall k nodeId allSpecs,
         Http.unsuccessful (fetch (Batch.url_of argv2 nodeId)) = true ->
         exists message,
           Batch.iteration fmt (Some tok) argv2 fetch clock k nodeId allSpecs
           = ([Batch.Get (Batch.url_of argv2 nodeId) (Some tok);
               Batch.ConsoleError nodeId message],
              inr allSpecs)
           /\ Batch.writes
                (IO.events (Batch.iteration fmt (Some tok) argv2 fetch clock k nodeId []))
              = []).
Proof.
  intros Htok run.
  destruct (for_of_shape fmt (Some tok) argv2 fetch clock nodeIds 0 [])
    as ([allSpecs Hout] & Hev).
  assert (Hrun : IO.outcome run = inr allSpecs
                 /\ IO.events run
                    = (if dir_exists then [] else [Batch.MkDir Batch.OUTPUT_DIR])
                      ++ Batch.iterations fmt (Some tok) argv2 fetch clock 0 nodeIds
                      ++ [Batch.WriteSummary "./figma-extract/extraction-summary.json"
                            (Batch.summary argv2 (clock (List.length nodeIds)) allSpecs)]).
  { unfold run, Batch.extract_all. rewrite Htok.
    destruct (Batch.for_of fmt (Some tok) argv2 fetch clock 0 nodeIds []) as [tr res].
    simpl in Hout, Hev. subst. destruct dir_exists; simpl; split; reflexivity. }
  destruct Hrun as [Ho He].
  split; [exists allSpecs; split; assumption|].
  split.
  - rewrite He. unfold Batch.requests. rewrite !flat_map_app.
    fold (Batch.requests (Batch.iterations fmt (Some tok) argv2 fetch clock 0 nodeIds)).
    rewrite iterations_requests.
    destruct dir_exists; simpl; now rewrite app_nil_r.
  - intros k nodeId all Hfail.
    destruct (iteration_on_failure fmt (Some tok) argv2 fetch clock k nodeId all Hfail)
      as [message E].
    destruct (iteration_on_failure fmt (Some tok) argv2 fetch clock k nodeId [] Hfail)
      as [message' E'].
    exists message. split; [exact E|]. rewrite E'. reflexivity.
Qed.

Lemma batch_isolates_failed_fetch_witness :
  let run :=
    Batch.extractCardSpecifications JsNumber.decimal (Some "figd_token") None
      Scenario.network true Scenario.clock in
  Batch.requests (IO.events run)
  = [ "https://api.figma.com/v1/files/zksBuILVajtp60Oca28Vnl/nodes?ids=21:5359";
      "https://api.figma.com/v1/files/zksBuILVajtp60Oca28Vnl/nodes?ids=21:5360" ]
  /\ (exists message,
        Batch.iteration JsNumber.decimal (Some "figd_token") None
          Scenario.network Scenario.clock 0 "21:5359" []
        = ([Batch.Get (Batch.url_of None "21:5359") (Some "figd_token");
            Batch.ConsoleError "21:5359" message],
           inr []))
  /\ map (fun e => match e with
                   | Batch.WriteSpec path _ | Batch.WriteSummary path _ => path
                   | _ => EmptyString
                   end)
         (Batch.writes (IO.events run))
     = [ "./figma-extract/balance-card-specs.json";
         "./figma-extract/extraction-summary.json" ].
Proof.
  intros run.
  destruct (batch_isolates_failed_fetch JsNumber.decimal "figd_token" None
              Scenario.network true Scenario.clock Batch.nodeIds eq_refl)
    as (_ & Hreq & Hfail).
  split; [exact Hreq|]. split.
  - destruct (Hfail 0 "21:5359" [] eq_refl) as (message & E & _).
    exists message. exact E.
  - vm_compute. reflexivity.
Defined.

(** ** The full-file exporter *)

Section PromiseFacts.
Context {A : Type}.

Lemma first_rejection_kept l : forall best,
  best <> None -> exists message, FigmaFetch.first_rejection best l = Some message.
Proof.
  induction l as [|[time [message|]] rest IH]; intros best Hbest; simpl.
  - destruct best as [[t0 m0]|]; [now exists m0 | congruence].
  - destruct best as [[t0 m0]|]; [|congruence].
    destruct (time <? t0)%nat; apply IH; discriminate.
  - now apply IH.
Qed.

Lemma first_rejection_found l : forall best,
  (exists time message, In (time, Some message) l) ->
  exists message, FigmaFetch.first_rejection best l = Some message.
Proof.
  induction l as [|[time [message|]] rest IH]; intros best (t & m & Hin); simpl.
  - destruct Hin.
  - destruct best as [[t0 m0]|]; [destruct (time <? t0)%nat|];
      apply first_rejection_kept; discriminate.
  - destruct Hin as [E|Hin]; [discriminate|]. apply IH. eauto.
Qed.

(** [Promise.all] rejects as soon as one of its promises does. *)
Lemma promise_all_rejects (ps : list (nat * IO.t FigmaFetch.event A)) p message :
  In p ps -> IO.outcome (snd p) = inl message ->
  exists message', IO.outcome (FigmaFetch.Promise_all ps) = inl message'.
Proof.
  intros Hin Hp. unfold FigmaFetch.Promise_all, IO.outcome at 1. simpl.
  destruct (first_rejection_found (map FigmaFetch.rejection ps) None) as [m' E].
  - exists (fst p), message. apply in_map_iff. exists p. split; [|exact Hin].
    unfold FigmaFetch.rejection. now rewrite Hp.
  - rewrite E. eauto.
Qed.
End PromiseFacts.

Section ExporterFacts.
Variable env : string -> option string.
Variable args : FigmaFetch.Args.
Variable outDir : string.
Variable outDir_exists : bool.
Variable fetch : FigmaFetch.request -> Http.result JsonValue.t.
Variable settles_at : nat -> nat.
Variable fetchedAt : string.

Let figmaGet := FigmaFetch.figmaGet fetch.

Lemma figmaGet_events endpoint token :
  IO.events (figmaGet endpoint token [])
  = [FigmaFetch.Get (FigmaFetch.makeRequest endpoint token [])].
Proof.
  unfold figmaGet, FigmaFetch.figmaGet. simpl.
  destruct (fetch _) as [m | [] status statusText text [m | v]]; reflexivity.
Qed.

Lemma figmaGet_unsuccessful endpoint token :
  Http.unsuccessful (fetch (FigmaFetch.makeRequest endpoint token [])) = true ->
  exists message, IO.outcome (figmaGet endpoint token []) = inl message.
Proof.
  unfold figmaGet, FigmaFetch.figmaGet. simpl.
  destruct (fetch _) as [m | [] status statusText text json]; simpl;
    [eauto | discriminate | eauto].
Qed.

Lemma figmaGet_fulfilled endpoint token status statusText text v :
  fetch (FigmaFetch.makeRequest endpoint token [])
  = Http.Response true status statusText text (inr v) ->
  figmaGet endpoint token []
  = ([FigmaFetch.Get (FigmaFetch.makeRequest endpoint token [])], inr v).
Proof.
  intros E. unfold figmaGet, FigmaFetch.figmaGet. simpl. now rewrite E.
Qed.

(** The variables call with its [catch]: one request, never a rejection. *)
Lemma variables_caught endpoint token :
  exists v,
    IO.try_catch (figmaGet endpoint token [])
      (fun message =>
         IO.ret (JsonValue.Object [("error", JsonValue.String message)]))
    = ([FigmaFetch.Get (FigmaFetch.makeRequest endpoint token [])], inr v)
    /\ forall message,
         IO.outcome (figmaGet endpoint token []) = inl message ->
         v = JsonValue.Object [("error", JsonValue.String message)].
Proof.
  pose proof (figmaGet_events endpoint token) as Hev.
  destruct (figmaGet endpoint token []) as [tr [m|v]]; simpl in Hev; subst tr.
  - eexists. split; [reflexivity|]. intros message [= ->]. reflexivity.
  - exists v. split; [reflexivity|]. intros message H. discriminate.
Qed.
End ExporterFacts.

Section ExporterRun.
Variable env : string -> option string.
Variable args : FigmaFetch.Args.
Variable outDir : string.
Variable outDir_exists : bool.
Variable fetch : FigmaFetch.request -> Http.result JsonValue.t.
Variable settles_at : nat -> nat.
Variable fetchedAt : string.
Variables token fileKey : string.

Hypothesis token_set : env "FIGMA_PERSONAL_ACCESS_TOKEN" = Some token.
Hypothesis token_truthy : JsString.truthy token = true.
Hypothesis key_set :
  FigmaFetch.or_string (FigmaFetch.fileKey args) (env "FIGMA_FILE_KEY") = Some fileKey.
Hypothesis key_truthy : JsString.truthy fileKey = true.

Let main := FigmaFetch.main env args outDir outDir_exists fetch settles_at fetchedAt.
Let promises := FigmaFetch.promises fetch settles_at token fileKey.
Let request (endpoint : string) := FigmaFetch.makeRequest endpoint token [].
Let prelude : list FigmaFetch.event :=
  (if outDir_exists then [] else [FigmaFetch.MkDir outDir])
  ++ [ FigmaFetch.Get (request ("/files/" ++ fileKey));
       FigmaFetch.Get (request ("/files/" ++ fileKey ++ "/styles"));
       FigmaFetch.Get (request ("/files/" ++ fileKey ++ "/components"));
       FigmaFetch.Get (request ("/files/" ++ fileKey ++ "/variables"));
       FigmaFetch.Get (request ("/files/" ++ fileKey ++ "/comments")) ].

Lemma promises_events :
  (if outDir_exists then [] else [FigmaFetch.MkDir outDir])
  ++ IO.events (FigmaFetch.Promise_all promises) = prelude.
Proof.
  unfold prelude. f_equal.
  unfold promises, FigmaFetch.promises, FigmaFetch.Promise_all, IO.events at 1.
  cbn [fst map snd concat].
  unfold FigmaFetch.fetchFile, FigmaFetch.fetchFileStyles,
    FigmaFetch.fetchFileComponents, FigmaFetch.fetchFileVariables,
    FigmaFetch.fetchComments.
  destruct (variables_caught fetch ("/files/" ++ fileKey ++ "/variables") token)
    as (v & -> & _).
  rewrite !figmaGet_events. reflexivity.
Qed.

(** [main] up to the join: the configuration is read, the directory
    made, and the five calls issued. *)
Lemma main_after_join :
  main
  = match FigmaFetch.Promise_all promises with
    | (tr, inl message) =>
        ((if outDir_exists then [] else [FigmaFetch.MkDir outDir]) ++ tr, inl message)
    | (tr, inr results) =>
        let '(tr', res) :=
          FigmaFetch.after_join env args outDir fetch fetchedAt token fileKey results in
        ((if outDir_exists then [] else [FigmaFetch.MkDir outDir]) ++ tr ++ tr', res)
    end.
Proof.
  unfold main, FigmaFetch.main, FigmaFetch.requireEnv, FigmaFetch.optionalEnv.
  rewrite token_set, token_truthy. cbn [IO.bind IO.ret].
  rewrite key_set, key_truthy. cbn [negb].
  fold promises.
  destruct (FigmaFetch.Promise_all promises) as [tr [message | results]];
    unfold FigmaFetch.resolveOutputDir; destruct outDir_exists; cbn.
  - reflexivity.
  - reflexivity.
  - now destruct (FigmaFetch.after_join _ _ _ _ _ _ _ results).
  - now destruct (FigmaFetch.after_join _ _ _ _ _ _ _ results).
Qed.
End ExporterRun.

Lemma fulfilled_inv {J} (r : Http.result J) (v : J) :
  Http.fulfilled r = Some v ->
  exists status statusText text, r = Http.Response true status statusText text (inr v).
Proof.
  destruct r as [m | [] status statusText text [m | w]]; simpl; try discriminate.
  intros [= ->]. eauto.
Qed.

(** C4. In the full-file exporter, with the token and the file key set:
    a failed fetch of the file, the styles, the components or the
    comments makes the join fail, so the run writes no file and ends
    with exit code 1; a failed fetch of the variables alone is caught,
    the object [{error: message}] is written to the variables file with
    the four other files, and the run ends with exit code 0. *)
Theorem exporter_failure_policy
        (env : string -> option string) (args : FigmaFetch.Args)
        (outDir : string) (outDir_exists : bool)
        (fetch : FigmaFetch.request -> Http.result JsonValue.t)
        (settles_at : nat -> nat) (fetchedAt token fileKey : string) :
  env "FIGMA_PERSONAL_ACCESS_TOKEN" = Some token ->
  JsString.truthy token = true ->
  FigmaFetch.or_string (FigmaFetch.fileKey args) (env "FIGMA_FILE_KEY") = Some fileKey ->
  JsString.truthy fileKey = true ->
  let main := FigmaFetch.main env args outDir outDir_exists fetch settles_at fetchedAt in
  let script := FigmaFetch.script env args outDir outDir_exists fetch settles_at fetchedAt in
  let request (endpoint : string) := FigmaFetch.makeRequest endpoint token [] in
  let file_rq := request ("/files/" ++ fileKey)%string in
  let styles_rq := request ("/files/" ++ fileKey ++ "/styles")%string in
  let components_rq := request ("/files/" ++ fileKey ++ "/components")%string in
  let variables_rq := request ("/files/" ++ fileKey ++ "/variables")%string in
  let comments_rq := request ("/files/" ++ fileKey ++ "/comments")%string in
  let issued :=
    (if outDir_exists then [] else [FigmaFetch.MkDir outDir])
    ++ [ FigmaFetch.Get file_rq; FigmaFetch.Get styles_rq;
         FigmaFetch.Get components_rq; FigmaFetch.Get variables_rq;
         FigmaFetch.Get comments_rq ] in
  let path (stem : string) : string :=
    (outDir ++ "/" ++ stem ++ "-" ++ fileKey ++ ".json")%string in
  (Http.unsuccessful (fetch file_rq) = true
   \/ Http.unsuccessful (fetch styles_rq) = true
   \/ Http.unsuccessful (fetch components_rq) = true
   \/ Http.unsuccessful (fetch comments_rq) = true ->
   exists message,
     main = (issued, inl message)
     /\ FigmaFetch.writes (IO.events main) = []
     /\ script = (issued ++ [FigmaFetch.ConsoleError message], 1%Z))
  /\ (forall file styles components comments message tail,
        Http.fulfilled (fetch file_rq) = Some file ->
        file <> JsonValue.Null ->
        Http.fulfilled (fetch styles_rq) = Some styles ->
        Http.fulfilled (fetch components_rq) = Some components ->
        Http.fulfilled (fetch comments_rq) = Some comments ->
        IO.outcome (FigmaFetch.fetchFileVariables fetch token fileKey) = inl message ->
        FigmaFetch.export_nodes env args outDir fetch token fileKey = (tail, inr tt) ->
        main
        = (issued
           ++ [ FigmaFetch.WriteFile (path "file") (FigmaFetch.file_payload fetchedAt file);
                FigmaFetch.WriteFile (path "styles") styles;
                FigmaFetch.WriteFile (path "components") components;
                FigmaFetch.WriteFile (path "variables")
                  (JsonValue.Object [("error", JsonValue.String message)]);
                FigmaFetch.WriteFile (path "comments") comments ]
           ++ tail,
           inr tt)
        /\ snd script = 0%Z).
Proof.
  intros Htok Htt Hkey Hkt main script request
         file_rq styles_rq components_rq variables_rq comments_rq issued path.
  pose proof (main_after_join env args outDir outDir_exists fetch settles_at fetchedAt
                token fileKey Htok Htt Hkey Hkt) as Hmain.
  pose proof (promises_events outDir outDir_exists fetch settles_at token fileKey) as Hev.
  fold main in Hmain. fold request file_rq styles_rq components_rq variables_rq
    comments_rq issued in Hev.
  split.
  - intros Hfail.
    assert (Hrej : exists message,
               IO.outcome (FigmaFetch.Promise_all
                             (FigmaFetch.promises fetch settles_at token fileKey))
               = inl message).
    { destruct Hfail as [H | [H | [H | H]]];
        apply figmaGet_unsuccessful in H as [m Hm].
      - apply (promise_all_rejects _
                 (settles_at 0, FigmaFetch.fetchFile fetch token fileKey) m);
          [simpl; tauto | exact Hm].
      - apply (promise_all_rejects _
                 (settles_at 1, FigmaFetch.fetchFileStyles fetch token fileKey) m);
          [simpl; tauto | exact Hm].
      - apply (promise_all_rejects _
                 (settles_at 2, FigmaFetch.fetchFileComponents fetch token fileKey) m);
          [simpl; tauto | exact Hm].
      - apply (promise_all_rejects _
                 (settles_at 4, FigmaFetch.fetchComments fetch token fileKey) m);
          [simpl; tauto | exact Hm]. }
    destruct Hrej as [message Hrej]. exists message.
    destruct (FigmaFetch.Promise_all _) as [tr res].
    simpl in Hrej, Hev. subst res. rewrite Hev in Hmain.
    assert (Hw : FigmaFetch.writes issued = [])
      by (unfold issued; destruct outDir_exists; reflexivity).
    split; [exact Hmain|]. split.
    + now rewrite Hmain.
    + unfold script, FigmaFetch.script. fold main. now rewrite Hmain.
  - intros file styles components comments message tail
           Hfile Hnull Hstyles Hcomponents Hcomments Hvars Htail.
    apply fulfilled_inv in Hfile as (? & ? & ? & Hfile).
    apply fulfilled_inv in Hstyles as (? & ? & ? & Hstyles).
    apply fulfilled_inv in Hcomponents as (? & ? & ? & Hcomponents).
    apply fulfilled_inv in Hcomments as (? & ? & ? & Hcomments).
    destruct (variables_caught fetch ("/files/" ++ fileKey ++ "/variables") token)
      as (v & Ev & Hv).
    specialize (Hv message Hvars). subst v.
    assert (Hjoin : FigmaFetch.Promise_all
                      (FigmaFetch.promises fetch settles_at token fileKey)
                    = ([ FigmaFetch.Get file_rq; FigmaFetch.Get styles_rq;
                         FigmaFetch.Get components_rq; FigmaFetch.Get variables_rq;
                         FigmaFetch.Get comments_rq ],
                       inr [ file; styles; components;
                             JsonValue.Object [("error", JsonValue.String message)];
                             comments ])).
    { unfold FigmaFetch.promises, FigmaFetch.fetchFile, FigmaFetch.fetchFileStyles,
        FigmaFetch.fetchFileComponents, FigmaFetch.fetchFileVariables,
        FigmaFetch.fetchComments.
      rewrite Ev.
      rewrite (figmaGet_fulfilled fetch _ _ _ _ _ _ Hfile),
        (figmaGet_fulfilled fetch _ _ _ _ _ _ Hstyles),
        (figmaGet_fulfilled fetch _ _ _ _ _ _ Hcomponents),
        (figmaGet_fulfilled fetch _ _ _ _ _ _ Hcomments).
      reflexivity. }
    rewrite Hjoin in Hmain.
    assert (Hafter : FigmaFetch.after_join env args outDir fetch fetchedAt token fileKey
                       [ file; styles; components;
                         JsonValue.Object [("error", JsonValue.String message)];
                         comments ]
                     = ([ FigmaFetch.WriteFile (path "file")
                            (FigmaFetch.file_payload fetchedAt file);
                          FigmaFetch.WriteFile (path "styles") styles;
                          FigmaFetch.WriteFile (path "components") components;
                          FigmaFetch.WriteFile (path "variables")
                            (JsonValue.Object [("error", JsonValue.String message)]);
                          FigmaFetch.WriteFile (path "comments") comments ] ++ tail,
                        inr tt)).
    { unfold FigmaFetch.after_join. rewrite Htail.
      destruct file; [contradiction | | | | |]; reflexivity. }
    rewrite Hafter in Hmain.
    split.
    + rewrite Hmain. unfold issued. rewrite <- !app_assoc. reflexivity.
    + unfold script, FigmaFetch.script. fold main. now rewrite Hmain.
Qed.

Lemma exporter_failure_policy_witness :
  let refused_styles :=
    FigmaFetch.script Scenario.env Scenario.args "/out" true
      (Scenario.refusing "/files/KEY/styles") Scenario.settles_at Scenario.clock0 in
  let refused_variables :=
    FigmaFetch.script Scenario.env Scenario.args "/out" true
      (Scenario.refusing "/files/KEY/variables") Scenario.settles_at Scenario.clock0 in
  FigmaFetch.writes (fst refused_styles) = []
  /\ snd refused_styles = 1%Z
  /\ snd refused_variables = 0%Z
  /\ In (FigmaFetch.WriteFile "/out/variables-KEY.json"
           (JsonValue.Object
              [("error",
                JsonValue.String
                  "Figma API /files/KEY/variables failed: 403 Forbidden -> denied")]))
        (IO.events
           (FigmaFetch.main Scenario.env Scenario.args "/out" true
              (Scenario.refusing "/files/KEY/variables") Scenario.settles_at
              Scenario.clock0)).
Proof.
  intros refused_styles refused_variables.
  destruct (exporter_failure_policy Scenario.env Scenario.args "/out" true
              (Scenario.refusing "/files/KEY/styles") Scenario.settles_at
              Scenario.clock0 "figd_token" "KEY" eq_refl eq_refl eq_refl eq_refl)
    as [Hfatal _].
  destruct Hfatal as (message & _ & _ & Hscript); [right; left; reflexivity|].
  destruct (exporter_failure_policy Scenario.env Scenario.args "/out" true
              (Scenario.refusing "/files/KEY/variables") Scenario.settles_at
              Scenario.clock0 "figd_token" "KEY" eq_refl eq_refl eq_refl eq_refl)
    as [_ Htolerated].
  destruct (Htolerated
              (Scenario.served "/files/KEY") (Scenario.served "/files/KEY/styles")
              (Scenario.served "/files/KEY/components")
              (Scenario.served "/files/KEY/comments")
              "Figma API /files/KEY/variables failed: 403 Forbidden -> denied" [])
    as [Hmain Hexit]; try reflexivity; [discriminate|].
  unfold refused_styles. rewrite Hscript.
  split; [reflexivity|]. split; [reflexivity|]. split; [exact Hexit|].
  rewrite Hmain. simpl. tauto.
Defined.

(** * Further properties *)

(** ** More on the name slugifier *)

Section SlugLength.
Import JsString.

Lemma lower_length s : String.length (toLowerCase s) = String.length s.
Proof. induction s as [|c r IH]; simpl; congruence. Qed.

Lemma runs_length s : forall b,
  String.length (replace_space_runs b s) <= String.length s.
Proof.
  induction s as [|c r IH]; intros b; simpl; [lia|].
  destruct (is_space c); [destruct b|]; simpl;
    [specialize (IH true) | specialize (IH true) | specialize (IH false)]; lia.
Qed.

Lemma strip_length s : String.length (strip_non_slug s) <= String.length s.
Proof.
  induction s as [|c r IH]; simpl; [lia|].
  destruct (is_slug_char c); simpl; lia.
Qed.
End SlugLength.

(** X1. The names the slugifier leaves as they are are exactly the
    strings over [a-z0-9-]; every slug is such a string and is never
    longer than the name. *)
Theorem slugify_fixed_points (name : string) :
  (JsString.slugify name = name <-> JsString.all_slug name = true)
  /\ JsString.all_slug (JsString.slugify name) = true
  /\ String.length (JsString.slugify name) <= String.length name.
Proof.
  split; [split|split].
  - intros E. rewrite <- E. apply slugify_all_slug.
  - intros H. unfold JsString.slugify.
    rewrite (lower_fixes_slug _ H), (runs_fix_slug _ false H).
    now apply strip_fixes_slug.
  - apply slugify_all_slug.
  - unfold JsString.slugify.
    pose proof (strip_length
                  (JsString.replace_space_runs false (JsString.toLowerCase name))).
    pose proof (runs_length (JsString.toLowerCase name) false).
    pose proof (lower_length name). lia.
Qed.

(** ** More on the extracted specification *)

Section FrameFacts.
Variable fmt : Q -> string.

Lemma record_color_untouched s paints :
  Frame.untouched (record_color fmt s paints) = Frame.untouched s.
Proof. unfold record_color. now destruct (first_solid paints). Qed.

Lemma visit_untouched s p :
  Frame.untouched (Walk.visit_pair fmt s p) = Frame.untouched s.
Proof.
  unfold Walk.visit_pair, visit. simpl.
  destruct (text_of (fst p)); simpl; apply record_color_untouched.
Qed.

Lemma fold_visit_untouched l : forall s,
  Frame.untouched (fold_left (Walk.visit_pair fmt) l s) = Frame.untouched s.
Proof.
  induction l as [|p rest IH]; intros s; simpl; [reflexivity|].
  now rewrite IH, visit_untouched.
Qed.
End FrameFacts.

Section RootFacts.
Variable fmt : Q -> string.

Lemma extract_root doc :
  exists specs,
    extractCardSpecs fmt (Some doc) = Some specs
    /\ Specs.children specs = map (Walk.entry fmt) (Walk.preorder 0 doc)
    /\ Specs.id specs = Node.id doc
    /\ Specs.name specs = Node.name doc
    /\ Specs.type specs = Node.type doc
    /\ Specs.text specs = []
    /\ Specs.styles specs
       = Specs.makeStyles
           (option_map (mapToDesignToken fmt) (first_solid (Node.fills doc)))
           (JsNumber.or_else (Node.cornerRadius doc) 0%Q)
           (if Frame.has_strokes doc
            then JsNumber.or_else (Node.strokeWeight doc) 1%Q else 0%Q)
           (option_map (mapToDesignToken fmt) (first_solid (Node.strokes doc))).
Proof.
  eexists. split; [unfold extractCardSpecs; rewrite traverse_is_fold; reflexivity|].
  split.
  - now rewrite fold_visit_children, !record_color_children.
  - match goal with
    | |- context [fold_left _ ?l ?s] =>
        pose proof (fold_visit_untouched fmt l s) as H
    end.
    rewrite !record_color_untouched in H.
    unfold Frame.untouched in H. simpl in H.
    injection H as -> -> -> _ -> ->. repeat split.
Qed.

Lemma or_else_truthy x d :
  JsNumber.truthy d = true -> JsNumber.truthy (JsNumber.or_else x d) = true.
Proof.
  intros Hd. unfold JsNumber.or_else.
  destruct x as [q|]; [destruct (JsNumber.truthy q) eqn:E|]; assumption.
Qed.
End RootFacts.

(** X2. Whatever the document, the specification keeps the id, the name
    and the type of the root, and its [text] list stays empty: the walk
    assigns nothing but the children and the two sets.  An entry without
    a document gives no specification. *)
Theorem extract_keeps_root_identity (fmt : Q -> string) (doc : Node.t) :
  extractCardSpecs fmt None = None
  /\ exists specs,
       extractCardSpecs fmt (Some doc) = Some specs
       /\ Specs.id specs = Node.id doc
       /\ Specs.name specs = Node.name doc
       /\ Specs.type specs = Node.type doc
       /\ Specs.text specs = [].
Proof.
  split; [reflexivity|].
  destruct (extract_root fmt doc) as (specs & E & _ & Hi & Hn & Ht & Hx & _).
  exists specs. repeat split; assumption.
Qed.

(** X3. The border width of the root is non-zero exactly when the
    document has at least one stroke (a stroke weight of 0, or none, is
    taken as 1), so a border colour is never recorded with a zero
    border width. *)
Theorem border_width_follows_strokes (fmt : Q -> string) (doc : Node.t) :
  exists specs,
    extractCardSpecs fmt (Some doc) = Some specs
    /\ JsNumber.truthy (Specs.borderWidth (Specs.styles specs)) = Frame.has_strokes doc
    /\ (Specs.borderColor (Specs.styles specs) <> None ->
        JsNumber.truthy (Specs.borderWidth (Specs.styles specs)) = true).
Proof.
  destruct (extract_root fmt doc) as (specs & E & _ & _ & _ & _ & _ & Hs).
  exists specs. split; [exact E|]. rewrite Hs. simpl.
  assert (Hw : JsNumber.truthy
                 (if Frame.has_strokes doc
                  then JsNumber.or_else (Node.strokeWeight doc) 1%Q else 0%Q)
               = Frame.has_strokes doc).
  { destruct (Frame.has_strokes doc); [|reflexivity].
    now apply or_else_truthy. }
  split; [exact Hw|].
  rewrite Hw. unfold Frame.has_strokes, first_solid.
  destruct (Node.strokes doc) as [[|p rest]|]; simpl; congruence.
Qed.

Lemma border_width_follows_strokes_witness :
  exists specs,
    extractCardSpecs JsNumber.decimal
      (Some (Node.make "3:1" "Outlined" "FRAME" None None None
               (Some [Paint.make "SOLID" (Some Scenario.white)]) (Some 0%Q)
               None None None))
    = Some specs
    /\ Specs.borderColor (Specs.styles specs) = Some "var(--white)"
    /\ JsNumber.truthy (Specs.borderWidth (Specs.styles specs)) = true.
Proof.
  destruct (border_width_follows_strokes JsNumber.decimal
              (Node.make "3:1" "Outlined" "FRAME" None None None
                 (Some [Paint.make "SOLID" (Some Scenario.white)]) (Some 0%Q)
                 None None None))
    as (specs & E & _ & H).
  exists specs. split; [exact E|].
  assert (Hc : Specs.borderColor (Specs.styles specs) = Some "var(--white)").
  { vm_compute in E. injection E as <-. reflexivity. }
  split; [exact Hc|]. apply H. rewrite Hc. discriminate.
Defined.

Section OccurrenceFacts.
Variable fmt : Q -> string.

(** The colour set holds exactly the colours met. *)
Lemma deduplicated_sets_occurrences doc :
  exists specs,
    extractCardSpecs fmt (Some doc) = Some specs
    /\ forall v, In v (Walk.color_occurrences fmt doc) -> In v (Specs.colors specs).
Proof.
  destruct (extract_unfold fmt doc) as (start & E & _ & _ & Hc).
  eexists. split; [exact E|].
  rewrite fold_visit_colors, Hc, <- fold_left_app.
  unfold Walk.color_occurrences. rewrite <- app_assoc.
  intros v H. apply add_all_In. now right.
Qed.
End OccurrenceFacts.

(** X4. In every specification each child has a text style exactly when
    it has a text content; it has one only if its node is of type TEXT
    with non-empty characters; and a text style has either no property
    (a text node without [style]) or the five properties fontFamily,
    fontSize, fontWeight, letterSpacing, lineHeight, in this order. *)
Theorem children_text_invariant (fmt : Q -> string) (doc : Node.t) :
  exists specs,
    extractCardSpecs fmt (Some doc) = Some specs
    /\ Forall (fun c =>
                 (ChildSpec.textStyle c = None <-> ChildSpec.textContent c = None)
                 /\ (forall txt, ChildSpec.textContent c = Some txt ->
                                 JsString.truthy txt = true
                                 /\ ChildSpec.type c = "TEXT")
                 /\ (forall ts, ChildSpec.textStyle c = Some ts ->
                                map fst ts = [] \/ map fst ts = TextStyleKeys.all))
              (Specs.children specs).
Proof.
  destruct (extract_root fmt doc) as (specs & E & Hc & _).
  exists specs. split; [exact E|].
  rewrite Hc. apply Forall_forall. intros c Hin.
  apply in_map_iff in Hin as ([n d] & <- & _).
  unfold Walk.entry, childSpec. simpl.
  destruct (text_of n) as [txt|] eqn:Et.
  - assert (Hn : JsString.truthy txt = true /\ Node.type n = "TEXT").
    { unfold text_of in Et.
      destruct (String.eqb_spec (Node.type n) "TEXT") as [Ht|Ht]; [|discriminate].
      destruct (Node.characters n) as [s|]; [|discriminate].
      destruct (JsString.truthy s) eqn:Es; [|discriminate].
      injection Et as <-. now split. }
    split; [split; discriminate|]. split.
    + intros txt' [= <-]. exact Hn.
    + intros ts [= <-]. unfold getTextStyle.
      destruct (Node.style n); [right|left]; reflexivity.
  - split; [split; reflexivity|]. split; intros ? H; discriminate H.
Qed.

(** X5. A first paint of type SOLID that carries no colour is recorded
    in the colour set as [transparent], while the background colour it
    gives, at the root or at a descendant, is the text token
    [var(--fg-text)]. *)
Theorem solid_paint_without_color (fmt : Q -> string) (doc : Node.t) :
  exists specs,
    extractCardSpecs fmt (Some doc) = Some specs
    /\ (forall rest,
          Node.fills doc = Some (Paint.make "SOLID" None :: rest) ->
          Specs.backgroundColor (Specs.styles specs) = Some "var(--fg-text)"
          /\ In "transparent" (Specs.colors specs))
    /\ (forall n d rest,
          In (n, d) (Walk.preorder 0 doc) ->
          Node.fills n = Some (Paint.make "SOLID" None :: rest) ->
          In "transparent" (Specs.colors specs)
          /\ exists c,
               In c (Specs.children specs)
               /\ ChildSpec.id c = Node.id n
               /\ ChildSpec.backgroundColor (ChildSpec.styles c)
                  = Some "var(--fg-text)").
Proof.
  destruct (extract_root fmt doc) as (specs & E & Hc & _ & _ & _ & _ & Hs).
  destruct (deduplicated_sets_occurrences fmt doc) as (specs' & E' & Hcol).
  rewrite E in E'. injection E' as <-.
  exists specs. split; [exact E|]. split.
  - intros rest Hf. split.
    + rewrite Hs. simpl. unfold first_solid. rewrite Hf. reflexivity.
    + apply Hcol. unfold Walk.color_occurrences, Walk.color_at, first_solid.
      rewrite Hf. simpl. now left.
  - intros n d rest Hin Hf. split.
    + apply Hcol. unfold Walk.color_occurrences. rewrite !in_app_iff. right. right.
      apply in_flat_map. exists (n, d). split; [exact Hin|].
      unfold Walk.color_at, first_solid. simpl. rewrite Hf. simpl. now left.
    + exists (Walk.entry fmt (n, d)). split; [|split].
      * rewrite Hc. now apply in_map.
      * reflexivity.
      * unfold Walk.entry, childSpec, first_solid. simpl. rewrite Hf. reflexivity.
Qed.

Lemma solid_paint_without_color_witness :
  exists specs,
    extractCardSpecs JsNumber.decimal (Some Samples.hollow) = Some specs
    /\ Specs.backgroundColor (Specs.styles specs) = Some "var(--fg-text)"
    /\ In "transparent" (Specs.colors specs)
    /\ exists c,
         In c (Specs.children specs)
         /\ ChildSpec.id c = "4:2"
         /\ ChildSpec.backgroundColor (ChildSpec.styles c) = Some "var(--fg-text)".
Proof.
  destruct (solid_paint_without_color JsNumber.decimal Samples.hollow)
    as (specs & E & Hroot & Hchild).
  exists specs. split; [exact E|].
  destruct (Hroot [] eq_refl) as [Hb Ht].
  split; [exact Hb|]. split; [exact Ht|].
  destruct (Hchild Samples.hollow_bar 0 []) as [_ Hc];
    [now left | reflexivity | exact Hc].
Defined.

(** ** The HTML skeleton *)

Section HtmlFacts.
Variable fmt : Q -> string.

Lemma text_of_truthy n txt : text_of n = Some txt -> JsString.truthy txt = true.
Proof.
  unfold text_of.
  destruct (String.eqb (Node.type n) "TEXT"); [|discriminate].
  destruct (Node.characters n) as [s|]; [|discriminate].
  destruct (JsString.truthy s) eqn:Es; [|discriminate].
  now intros [= <-].
Qed.

Lemma childLine_entry p : childLine (Walk.entry fmt p) = Html.line p.
Proof.
  destruct p as [n d]. unfold childLine, Html.line, Walk.entry, childSpec. simpl.
  destruct (text_of n) as [txt|] eqn:Et; [|reflexivity].
  now rewrite (text_of_truthy n txt Et).
Qed.

Lemma append_length (s t : string) :
  String.length (s ++ t) = String.length s + String.length t.
Proof. induction s as [|c r IH]; simpl; congruence. Qed.

Lemma repeat_length pad n :
  String.length (JsString.repeat pad n) = n * String.length pad.
Proof.
  induction n as [|k IH]; simpl; [reflexivity|].
  now rewrite append_length, IH.
Qed.
End HtmlFacts.

(** X6. The HTML skeleton of a document is the opening tag of the root,
    classed by the slug of its name, then one line per descendant in
    depth-first pre-order, then the closing tag; the line of a
    descendant at nesting depth [d] is indented by [2 * (d + 1)] spaces
    and is a [span] holding the characters, unescaped, when the
    descendant is a text node with characters, an empty [div]
    otherwise. *)
Theorem html_lists_descendants (fmt : Q -> string) (doc : Node.t) :
  exists specs,
    extractCardSpecs fmt (Some doc) = Some specs
    /\ generateHTMLStructure specs
       = ("<div class=" ++ Json.quote ++ JsString.slugify (Node.name doc)
          ++ Json.quote ++ ">" ++ nl
          ++ concat_strings (map Html.line (Walk.preorder 0 doc))
          ++ "</div>")%string
    /\ forall d, String.length (JsString.repeat "  " (d + 1)) = 2 * (d + 1).
Proof.
  destruct (extract_root fmt doc) as (specs & E & Hc & _ & Hn & _).
  exists specs. split; [exact E|]. split.
  - unfold generateHTMLStructure. rewrite Hc, Hn, map_map.
    rewrite (map_ext _ _ (childLine_entry fmt)). reflexivity.
  - intros d. rewrite repeat_length. simpl. lia.
Qed.

(** ** More on the batch driver *)

Section IterationFacts.
Variable fmt : Q -> string.
Variable token : option string.
Variable argv2 : option string.
Variable fetch : string -> Http.result Batch.body.
Variable clock : nat -> string.

Let iteration := Batch.iteration fmt token argv2 fetch clock.
Let url_of := Batch.url_of argv2.

(** The three ways an iteration can go: a specification file is
    written and pushed; nothing is written and nothing reported; an
    error is reported. *)
Lemma iteration_cases k nodeId allSpecs :
  (exists path specFile,
      iteration k nodeId allSpecs
      = ([Batch.Get (url_of nodeId) token; Batch.WriteSpec path specFile],
         inr (allSpecs ++ [specFile]))
      /\ BatchTrace.well_named (Batch.WriteSpec path specFile))
  \/ iteration k nodeId allSpecs = ([Batch.Get (url_of nodeId) token], inr allSpecs)
  \/ (exists message,
         iteration k nodeId allSpecs
         = ([Batch.Get (url_of nodeId) token; Batch.ConsoleError nodeId message],
            inr allSpecs)).
Proof.
  unfold iteration, url_of, Batch.url_of, Batch.iteration, Batch.attempt,
    Batch.getNodeDetails, Batch.figmaRequest.
  destruct (fetch _) as [message | [] status statusText text [message | [nodes|]]];
    simpl; eauto.
  destruct (extractCardSpecs fmt _) as [specs|]; simpl; [left | right; left; reflexivity].
  do 2 eexists. split; [reflexivity|].
  simpl. repeat split. apply slugify_all_slug.
Qed.

Let for_of := Batch.for_of fmt token argv2 fetch clock.

Lemma for_of_written nodeIds : forall k allSpecs,
  exists written,
    IO.outcome (for_of k nodeIds allSpecs) = inr (allSpecs ++ written)
    /\ BatchTrace.spec_files (IO.events (for_of k nodeIds allSpecs)) = written
    /\ List.length written <= List.length nodeIds
    /\ Forall BatchTrace.well_named (IO.events (for_of k nodeIds allSpecs)).
Proof.
  induction nodeIds as [|nodeId rest IH]; intros k allSpecs.
  - exists []. simpl. rewrite app_nil_r. repeat split; auto.
  - unfold for_of; simpl; fold for_of; fold iteration.
    destruct (iteration_cases k nodeId allSpecs)
      as [(path & specFile & -> & Hn) | [-> | (message & ->)]]; cbn [IO.bind].
    + destruct (IH (S k) (allSpecs ++ [specFile])) as (written & Ho & Hs & Hl & Hf).
      destruct (for_of (S k) rest (allSpecs ++ [specFile])) as [tr res].
      simpl in Ho, Hs, Hf. subst res.
      exists (specFile :: written). simpl. rewrite <- app_assoc. simpl.
      repeat split; try (f_equal; assumption); try lia.
      constructor; [exact I|]. constructor; assumption.
    + destruct (IH (S k) allSpecs) as (written & Ho & Hs & Hl & Hf).
      destruct (for_of (S k) rest allSpecs) as [tr res].
      simpl in Ho, Hs, Hf. subst res.
      exists written. simpl. repeat split; try assumption; try lia.
      constructor; [exact I | assumption].
    + destruct (IH (S k) allSpecs) as (written & Ho & Hs & Hl & Hf).
      destruct (for_of (S k) rest allSpecs) as [tr res].
      simpl in Ho, Hs, Hf. subst res.
      exists written. simpl. repeat split; try assumption; try lia.
      constructor; [exact I|]. constructor; [exact I | assumption].
Qed.
End IterationFacts.

(** X7. Without [FIGMA_TOKEN], absent or empty, the batch driver throws
    before any effect: no directory is made, nothing is fetched, nothing
    is written.  With it the driver never throws, whatever the network
    answers. *)
Theorem batch_needs_token
        (fmt : Q -> string) (argv2 : option string)
        (fetch : string -> Http.result Batch.body) (dir_exists : bool)
        (clock : nat -> string) (nodeIds : list string) :
  Batch.extract_all fmt None argv2 fetch dir_exists clock nodeIds
  = ([], inl "FIGMA_TOKEN environment variable is required")
  /\ Batch.extract_all fmt (Some EmptyString) argv2 fetch dir_exists clock nodeIds
     = ([], inl "FIGMA_TOKEN environment variable is required")
  /\ forall c rest,
       exists allSpecs,
         IO.outcome (Batch.extract_all fmt (Some (String c rest)) argv2 fetch
                       dir_exists clock nodeIds)
         = inr allSpecs.
Proof.
  split; [reflexivity|]. split; [reflexivity|].
  intros c rest. unfold Batch.extract_all. simpl JsString.truthy. cbv iota.
  destruct (for_of_written fmt (Some (String c rest)) argv2 fetch clock nodeIds 0 [])
    as (written & Ho & _).
  destruct (Batch.for_of _ _ _ _ _ 0 nodeIds []) as [tr res]. simpl in Ho. subst res.
  exists written. destruct dir_exists; reflexivity.
Qed.

(** X8. When the response to the request of a node id is a success, the
    iteration goes by its body: without [nodes] the [TypeError] is
    caught and reported, nothing is written; with [nodes] but no entry
    for the id, or an entry without [document], nothing is written and
    nothing is reported; with a document, one specification file is
    written, holding the specification of that document, and pushed to
    [allSpecs]. *)
Theorem iteration_by_body
        (fmt : Q -> string) (token : option string) (argv2 : option string)
        (fetch : string -> Http.result Batch.body) (clock : nat -> string)
        (k : nat) (nodeId : string) (allSpecs : list SpecFile.t)
        (status : Z) (statusText text : string) (body : Batch.body) :
  fetch (Batch.url_of argv2 nodeId)
  = Http.Response true status statusText text (inr body) ->
  let run := Batch.iteration fmt token argv2 fetch clock k nodeId allSpecs in
  let get := Batch.Get (Batch.url_of argv2 nodeId) token in
  match body with
  | None =>
      exists message, run = ([get; Batch.ConsoleError nodeId message], inr allSpecs)
  | Some nodes =>
      match JsObject.get nodeId nodes with
      | None | Some None => run = ([get], inr allSpecs)
      | Some (Some doc) =>
          exists specs,
            extractCardSpecs fmt (Some doc) = Some specs
            /\ run = ([get;
                       Batch.WriteSpec
                         ("./figma-extract/" ++ JsString.slugify (Node.name doc)
                          ++ "-specs.json")%string
                         (generateSpecFile fmt (clock k) specs
                            (JsString.slugify (Node.name doc)))],
                      inr (allSpecs
                           ++ [generateSpecFile fmt (clock k) specs
                                 (JsString.slugify (Node.name doc))]))
      end
  end.
Proof.
  intros Hf run get. unfold run, get, Batch.iteration, Batch.attempt,
    Batch.getNodeDetails, Batch.figmaRequest.
  fold (Batch.url_of argv2 nodeId). rewrite Hf.
  destruct body as [nodes|]; simpl; [|eauto].
  destruct (JsObject.get nodeId nodes) as [[doc|]|]; try reflexivity.
  destruct (extract_root fmt doc) as (specs & E & _ & _ & Hn & _).
  rewrite E. simpl. rewrite Hn. eauto.
Qed.

Lemma iteration_by_body_witness :
  Batch.iteration JsNumber.decimal (Some "figd_token") None MoreSamples.partial
    Scenario.clock 0 "21:5359" []
  = ([Batch.Get (Batch.url_of None "21:5359") (Some "figd_token")], inr [])
  /\ Batch.iteration JsNumber.decimal (Some "figd_token") None MoreSamples.partial
       Scenario.clock 0 "21:5361" []
     = ([Batch.Get (Batch.url_of None "21:5361") (Some "figd_token")], inr [])
  /\ (exists message,
        Batch.iteration JsNumber.decimal (Some "figd_token") None MoreSamples.bare
          Scenario.clock 0 "21:5359" []
        = ([Batch.Get (Batch.url_of None "21:5359") (Some "figd_token");
            Batch.ConsoleError "21:5359" message], inr [])).
Proof.
  split; [|split].
  - exact (iteration_by_body JsNumber.decimal (Some "figd_token") None
             MoreSamples.partial Scenario.clock 0 "21:5359" [] _ _ _ _ eq_refl).
  - exact (iteration_by_body JsNumber.decimal (Some "figd_token") None
             MoreSamples.partial Scenario.clock 0 "21:5361" [] _ _ _ _ eq_refl).
  - exact (iteration_by_body JsNumber.decimal (Some "figd_token") None
             MoreSamples.bare Scenario.clock 0 "21:5359" [] _ _ _ _ eq_refl).
Defined.

(** X9. In a run of the batch driver the cards of the summary are the
    specification files written, in the order written: the list the
    driver returns is the list of the files written, their number is at
    most the number of node ids, and the summary written last counts
    and names exactly them. *)
Theorem summary_lists_written_files
        (fmt : Q -> string) (tok : string) (argv2 : option string)
        (fetch : string -> Http.result Batch.body) (dir_exists : bool)
        (clock : nat -> string) (nodeIds : list string) :
  JsString.truthy tok = true ->
  let run := Batch.extract_all fmt (Some tok) argv2 fetch dir_exists clock nodeIds in
  exists allSpecs summary,
    IO.outcome run = inr allSpecs
    /\ BatchTrace.spec_files (IO.events run) = allSpecs
    /\ List.length allSpecs <= List.length nodeIds
    /\ last (IO.events run) (Batch.MkDir EmptyString)
       = Batch.WriteSummary "./figma-extract/extraction-summary.json" summary
    /\ Summary.totalCards summary = List.length allSpecs
    /\ map Summary.name (Summary.cards summary) = map SpecFile.cardName allSpecs
    /\ map Summary.children (Summary.cards summary)
       = map (fun f => List.length (Specs.children (SpecFile.specifications f))) allSpecs.
Proof.
  intros Htok run.
  destruct (for_of_written fmt (Some tok) argv2 fetch clock nodeIds 0 [])
    as (written & Ho & Hs & Hl & _).
  exists written, (Batch.summary argv2 (clock (List.length nodeIds)) written).
  unfold run, Batch.extract_all. rewrite Htok.
  destruct (Batch.for_of _ _ _ _ _ 0 nodeIds []) as [tr res].
  simpl in Ho, Hs. subst res.
  assert (Hspec : forall pre,
             BatchTrace.spec_files pre = [] ->
             BatchTrace.spec_files
               (pre ++ tr ++ [Batch.WriteSummary "./figma-extract/extraction-summary.json"
                                (Batch.summary argv2 (clock (List.length nodeIds)) written)])
             = written).
  { intros pre Hpre. unfold BatchTrace.spec_files in *.
    rewrite !flat_map_app, Hpre, Hs. simpl. now rewrite app_nil_r. }
  destruct dir_exists; cbn [IO.bind IO.ret IO.emit IO.outcome IO.events fst snd app].
  - split; [reflexivity|]. split; [apply (Hspec []); reflexivity|].
    split; [exact Hl|]. split; [apply last_last|].
    unfold Batch.summary. simpl. rewrite !map_map. repeat split.
  - split; [reflexivity|].
    split; [apply (Hspec [Batch.MkDir Batch.OUTPUT_DIR]); reflexivity|].
    split; [exact Hl|].
    split; [rewrite app_comm_cons; apply last_last|].
    unfold Batch.summary. simpl. rewrite !map_map. repeat split.
Qed.

Lemma summary_lists_written_files_witness :
  let run :=
    Batch.extractCardSpecifications JsNumber.decimal (Some "figd_token") None
      Scenario.network true Scenario.clock in
  exists allSpecs summary,
    IO.outcome run = inr allSpecs
    /\ BatchTrace.spec_files (IO.events run) = allSpecs
    /\ map SpecFile.cardName allSpecs = ["balance-card"]
    /\ last (IO.events run) (Batch.MkDir EmptyString)
       = Batch.WriteSummary "./figma-extract/extraction-summary.json" summary
    /\ Summary.totalCards summary = 1
    /\ map Summary.children (Summary.cards summary) = [2].
Proof.
  intros run.
  destruct (summary_lists_written_files JsNumber.decimal "figd_token" None
              Scenario.network true Scenario.clock Batch.nodeIds eq_refl)
    as (allSpecs & summary & Ho & Hs & _ & Hlast & Ht & _ & Hc).
  exists allSpecs, summary.
  assert (Hnames : map SpecFile.cardName allSpecs = ["balance-card"])
    by (rewrite <- Hs; vm_compute; reflexivity).
  assert (Hkids : map (fun f => List.length (Specs.children (SpecFile.specifications f)))
                      allSpecs = [2])
    by (rewrite <- Hs; vm_compute; reflexivity).
  split; [exact Ho|]. split; [exact Hs|]. split; [exact Hnames|].
  split; [exact Hlast|]. split.
  - rewrite Ht, <- (length_map SpecFile.cardName), Hnames. reflexivity.
  - rewrite Hc. exact Hkids.
Defined.

(** X10. Every specification file of a run is written to
    [./figma-extract/<card name>-specs.json], the card name being the
    slug of the name of its specification: a string over [a-z0-9-], so
    the path never leaves the output directory; its design tokens are
    the two sets of the specification. *)
Theorem spec_files_well_named
        (fmt : Q -> string) (token : option string) (argv2 : option string)
        (fetch : string -> Http.result Batch.body) (dir_exists : bool)
        (clock : nat -> string) (nodeIds : list string) :
  Forall BatchTrace.well_named
         (IO.events (Batch.extract_all fmt token argv2 fetch dir_exists clock nodeIds)).
Proof.
  unfold Batch.extract_all.
  destruct token as [tok|]; [|constructor].
  destruct (JsString.truthy tok); [|constructor].
  destruct (for_of_written fmt (Some tok) argv2 fetch clock nodeIds 0 [])
    as (written & Ho & _ & _ & Hf).
  destruct (Batch.for_of _ _ _ _ _ 0 nodeIds []) as [tr res].
  simpl in Ho, Hf. subst res.
  destruct dir_exists; cbn [IO.bind IO.ret IO.emit IO.events fst snd app].
  - apply Forall_app. split; [exact Hf|]. repeat constructor.
  - constructor; [exact I|]. apply Forall_app. split; [exact Hf|]. repeat constructor.
Qed.

(** ** More on the full-file exporter *)

Section JoinFacts.
Variable env : string -> option string.
Variable args : FigmaFetch.Args.
Variable outDir : string.
Variable outDir_exists : bool.
Variable fetch : FigmaFetch.request -> Http.result JsonValue.t.
Variable settles_at : nat -> nat.
Variable fetchedAt : string.
Variables token fileKey : string.

Let answer (endpoint : string) := fetch (ExporterRun.request token endpoint).

(** The join when the four calls without a [catch] are served. *)
Lemma join_served file styles components comments :
  Http.fulfilled (answer ("/files/" ++ fileKey)) = Some file ->
  Http.fulfilled (answer ("/files/" ++ fileKey ++ "/styles")) = Some styles ->
  Http.fulfilled (answer ("/files/" ++ fileKey ++ "/components")) = Some components ->
  Http.fulfilled (answer ("/files/" ++ fileKey ++ "/comments")) = Some comments ->
  FigmaFetch.Promise_all (FigmaFetch.promises fetch settles_at token fileKey)
  = (ExporterRun.gets token fileKey,
     inr [ file; styles; components;
           ExporterRun.variables_payload
             (IO.outcome (FigmaFetch.fetchFileVariables fetch token fileKey));
           comments ]).
Proof.
  intros Hfile Hstyles Hcomponents Hcomments.
  apply fulfilled_inv in Hfile as (? & ? & ? & Hfile).
  apply fulfilled_inv in Hstyles as (? & ? & ? & Hstyles).
  apply fulfilled_inv in Hcomponents as (? & ? & ? & Hcomponents).
  apply fulfilled_inv in Hcomments as (? & ? & ? & Hcomments).
  unfold FigmaFetch.promises, FigmaFetch.fetchFile, FigmaFetch.fetchFileStyles,
    FigmaFetch.fetchFileComponents, FigmaFetch.fetchFileVariables,
    FigmaFetch.fetchComments.
  rewrite (figmaGet_fulfilled fetch _ _ _ _ _ _ Hfile),
    (figmaGet_fulfilled fetch _ _ _ _ _ _ Hstyles),
    (figmaGet_fulfilled fetch _ _ _ _ _ _ Hcomponents),
    (figmaGet_fulfilled fetch _ _ _ _ _ _ Hcomments).
  pose proof (figmaGet_events fetch ("/files/" ++ fileKey ++ "/variables") token) as Hev.
  destruct (FigmaFetch.figmaGet fetch ("/files/" ++ fileKey ++ "/variables") token [])
    as [tr [m|v]]; simpl in Hev; subst tr; reflexivity.
Qed.

End JoinFacts.

Section StringFacts.
Lemma append_cancel_l (s a b : string) : (s ++ a = s ++ b)%string -> a = b.
Proof.
  induction s as [|c r IH]; simpl; [auto|].
  intros [= H]. auto.
Qed.

Lemma append_assoc (a b c : string) : ((a ++ b) ++ c = a ++ (b ++ c))%string.
Proof. induction a as [|x r IH]; simpl; congruence. Qed.

End StringFacts.

Section ServedRun.
Variable env : string -> option string.
Variable args : FigmaFetch.Args.
Variable outDir : string.
Variable outDir_exists : bool.
Variable fetch : FigmaFetch.request -> Http.result JsonValue.t.
Variable settles_at : nat -> nat.
Variable fetchedAt : string.
Variables token fileKey : string.

Hypothesis token_set : env "FIGMA_PERSONAL_ACCESS_TOKEN" = Some token.
Hypothesis token_truthy : JsString.truthy token = true.
Hypothesis key_set :
  FigmaFetch.or_string (FigmaFetch.fileKey args) (env "FIGMA_FILE_KEY") = Some fileKey.
Hypothesis key_truthy : JsString.truthy fileKey = true.

Let answer (endpoint : string) := fetch (ExporterRun.request token endpoint).

Variables file styles components comments : JsonValue.t.
Hypothesis file_served :
  Http.fulfilled (answer ("/files/" ++ fileKey)) = Some file.
Hypothesis styles_served :
  Http.fulfilled (answer ("/files/" ++ fileKey ++ "/styles")) = Some styles.
Hypothesis components_served :
  Http.fulfilled (answer ("/files/" ++ fileKey ++ "/components")) = Some components.
Hypothesis comments_served :
  Http.fulfilled (answer ("/files/" ++ fileKey ++ "/comments")) = Some comments.

(** [main] when the four calls without a [catch] are served. *)
Lemma main_served :
  FigmaFetch.main env args outDir outDir_exists fetch settles_at fetchedAt
  = let '(tr, res) :=
      FigmaFetch.after_join env args outDir fetch fetchedAt token fileKey
        [ file; styles; components;
          ExporterRun.variables_payload
            (IO.outcome (FigmaFetch.fetchFileVariables fetch token fileKey));
          comments ] in
    ((if outDir_exists then [] else [FigmaFetch.MkDir outDir])
     ++ ExporterRun.gets token fileKey ++ tr, res).
Proof.
  rewrite (main_after_join env args outDir outDir_exists fetch settles_at fetchedAt
             token fileKey token_set token_truthy key_set key_truthy).
  rewrite (join_served fetch settles_at token fileKey file styles components comments
             file_served styles_served components_served comments_served).
  reflexivity.
Qed.
End ServedRun.

(** X11. The exporter reads its configuration before any effect: without
    the token (absent or empty) it throws the message that names the
    variable, and with the token but neither [--fileKey] nor
    [FIGMA_FILE_KEY] given it throws the message of the file key; in
    both cases nothing is fetched, no directory is made, and the exit
    code is 1. *)
Theorem exporter_configuration_errors
        (env : string -> option string) (args : FigmaFetch.Args)
        (outDir : string) (outDir_exists : bool)
        (fetch : FigmaFetch.request -> Http.result JsonValue.t)
        (settles_at : nat -> nat) (fetchedAt : string) :
  let main := FigmaFetch.main env args outDir outDir_exists fetch settles_at fetchedAt in
  let script := FigmaFetch.script env args outDir outDir_exists fetch settles_at fetchedAt in
  let no_token :=
    "Missing required env var FIGMA_PERSONAL_ACCESS_TOKEN. See .env.example" in
  let no_key := "No --fileKey provided and FIGMA_FILE_KEY not set in env" in
  (ExporterRun.given (env "FIGMA_PERSONAL_ACCESS_TOKEN") = false ->
   main = ([], inl no_token)
   /\ script = ([FigmaFetch.ConsoleError no_token], 1%Z))
  /\ (ExporterRun.given (env "FIGMA_PERSONAL_ACCESS_TOKEN") = true ->
      ExporterRun.given (FigmaFetch.fileKey args) = false ->
      ExporterRun.given (env "FIGMA_FILE_KEY") = false ->
      main = ([], inl no_key)
      /\ script = ([FigmaFetch.ConsoleError no_key], 1%Z)).
Proof.
  intros main script no_token no_key.
  unfold script, FigmaFetch.script. fold main.
  unfold main, FigmaFetch.main, FigmaFetch.requireEnv, FigmaFetch.optionalEnv,
    FigmaFetch.or_string, ExporterRun.given.
  split.
  - intros Ht. destruct (env "FIGMA_PERSONAL_ACCESS_TOKEN") as [t|];
      [rewrite Ht|]; split; reflexivity.
  - intros Ht Ha He.
    destruct (env "FIGMA_PERSONAL_ACCESS_TOKEN") as [t|]; [|discriminate].
    rewrite Ht. cbn [IO.bind IO.ret].
    destruct (FigmaFetch.fileKey args) as [a|]; [rewrite Ha|];
      (destruct (env "FIGMA_FILE_KEY") as [e|]; [rewrite He|]);
      split; reflexivity.
Qed.

Lemma exporter_configuration_errors_witness :
  FigmaFetch.script ExporterSamples.no_env Scenario.args "/out" true
    ExporterSamples.serving Scenario.settles_at Scenario.clock0
  = ([FigmaFetch.ConsoleError
        "Missing required env var FIGMA_PERSONAL_ACCESS_TOKEN. See .env.example"], 1%Z)
  /\ FigmaFetch.script ExporterSamples.token_only Scenario.args "/out" true
       ExporterSamples.serving Scenario.settles_at Scenario.clock0
     = ([FigmaFetch.ConsoleError
           "No --fileKey provided and FIGMA_FILE_KEY not set in env"], 1%Z).
Proof.
  split.
  - exact (proj2 (proj1 (exporter_configuration_errors ExporterSamples.no_env
                           Scenario.args "/out" true ExporterSamples.serving
                           Scenario.settles_at Scenario.clock0) eq_refl)).
  - exact (proj2 (proj2 (exporter_configuration_errors ExporterSamples.token_only
                           Scenario.args "/out" true ExporterSamples.serving
                           Scenario.settles_at Scenario.clock0)
                        eq_refl eq_refl eq_refl)).
Defined.



(** X13. A file body that is JSON [null] makes the run fail although
    every fetch succeeded: the destructuring of line 93 throws, no file
    is written, and the exit code is 1. *)
Theorem exporter_null_file_body
        (env : string -> option string) (args : FigmaFetch.Args)
        (outDir : string) (outDir_exists : bool)
        (fetch : FigmaFetch.request -> Http.result JsonValue.t)
        (settles_at : nat -> nat) (fetchedAt token fileKey : string)
        (styles components comments : JsonValue.t) :
  env "FIGMA_PERSONAL_ACCESS_TOKEN" = Some token ->
  JsString.truthy token = true ->
  FigmaFetch.or_string (FigmaFetch.fileKey args) (env "FIGMA_FILE_KEY") = Some fileKey ->
  JsString.truthy fileKey = true ->
  let answer endpoint := fetch (ExporterRun.request token endpoint) in
  Http.fulfilled (answer ("/files/" ++ fileKey)%string) = Some JsonValue.Null ->
  Http.fulfilled (answer ("/files/" ++ fileKey ++ "/styles")%string) = Some styles ->
  Http.fulfilled (answer ("/files/" ++ fileKey ++ "/components")%string) = Some components ->
  Http.fulfilled (answer ("/files/" ++ fileKey ++ "/comments")%string) = Some comments ->
  let main := FigmaFetch.main env args outDir outDir_exists fetch settles_at fetchedAt in
  let script := FigmaFetch.script env args outDir outDir_exists fetch settles_at fetchedAt in
  (exists message,
      main = ((if outDir_exists then [] else [FigmaFetch.MkDir outDir])
              ++ ExporterRun.gets token fileKey, inl message))
  /\ FigmaFetch.writes (IO.events main) = []
  /\ snd script = 1%Z.
Proof.
  intros Htok Htt Hkey Hkt answer Hfile Hstyles Hcomponents Hcomments main script.
  assert (Hmain : exists message,
             main = ((if outDir_exists then [] else [FigmaFetch.MkDir outDir])
                     ++ ExporterRun.gets token fileKey, inl message)).
  { unfold main.
    rewrite (main_served env args outDir outDir_exists fetch settles_at fetchedAt
               token fileKey Htok Htt Hkey Hkt JsonValue.Null styles components comments
               Hfile Hstyles Hcomponents Hcomments).
    unfold FigmaFetch.after_join, FigmaFetch.write_all.
    cbn [IO.bind IO.throw]. rewrite app_nil_r. eauto. }
  destruct Hmain as [message Hmain].
  split; [eauto|].
  unfold script, FigmaFetch.script. fold main. rewrite Hmain.
  split; [destruct outDir_exists|]; reflexivity.
Qed.

Lemma exporter_null_file_body_witness :
  let script :=
    FigmaFetch.script Scenario.env Scenario.args "/out" true ExporterSamples.null_file
      Scenario.settles_at Scenario.clock0 in
  FigmaFetch.writes (fst script) = [] /\ snd script = 1%Z.
Proof.
  intros script.
  destruct (exporter_null_file_body Scenario.env Scenario.args "/out" true
              ExporterSamples.null_file Scenario.settles_at Scenario.clock0
              "figd_token" "KEY"
              (Scenario.served "/files/KEY/styles")
              (Scenario.served "/files/KEY/components")
              (Scenario.served "/files/KEY/comments")
              eq_refl eq_refl eq_refl eq_refl eq_refl eq_refl eq_refl eq_refl)
    as (_ & _ & Hexit).
  split; [reflexivity | exact Hexit].
Defined.

Section AgreeFacts.
Context {E A B : Type}.

Lemma agree_refl (a : IO.t E A) : Agree.runs a a.
Proof. split; [reflexivity|]. now destruct (IO.outcome a). Qed.

Lemma agree_bind (m1 m2 : IO.t E A) (k1 k2 : A -> IO.t E B) :
  Agree.runs m1 m2 -> (forall v, Agree.runs (k1 v) (k2 v)) ->
  Agree.runs (IO.bind m1 k1) (IO.bind m2 k2).
Proof.
  destruct m1 as [tr1 [e1|v1]], m2 as [tr2 [e2|v2]];
    unfold Agree.runs; simpl; intros [Hev Hout] Hk; try contradiction.
  - now split.
  - subst. specialize (Hk v2). destruct Hk as [Hev' Hout'].
    destruct (k1 v2) as [t1 r1], (k2 v2) as [t2 r2]. simpl in *.
    subst. now split.
Qed.
End AgreeFacts.

Section SettleFacts.
Context {A : Type}.

Lemma first_rejection_none l :
  Forall (fun p : nat * option string => snd p = None) l ->
  FigmaFetch.first_rejection None l = None.
Proof.
  induction 1 as [|[time [m|]] rest Hp _ IH]; simpl in *;
    [reflexivity | discriminate | exact IH].
Qed.

(** The join performs the events of its promises in the order of the
    array and ends by their outcomes alone: the times at which they
    settle decide nothing but the message of a rejection. *)
Lemma promise_all_agree (ps1 ps2 : list (nat * IO.t FigmaFetch.event A)) :
  map snd ps1 = map snd ps2 ->
  Agree.runs (FigmaFetch.Promise_all ps1) (FigmaFetch.Promise_all ps2).
Proof.
  intros Hs. unfold Agree.runs, FigmaFetch.Promise_all. simpl. split.
  - rewrite <- !(map_map snd IO.events), Hs. reflexivity.
  - rewrite <- Hs.
    assert (Hcases :
              forall ps : list (nat * IO.t FigmaFetch.event A),
                (exists m, FigmaFetch.first_rejection None (map FigmaFetch.rejection ps)
                           = Some m
                           /\ exists p, In p (map snd ps) /\ exists e, IO.outcome p = inl e)
                \/ (FigmaFetch.first_rejection None (map FigmaFetch.rejection ps) = None
                    /\ Forall (fun p => exists v, IO.outcome p = inr v) (map snd ps))).
    { intros ps.
      assert (Hdec : Forall (fun p => exists v, IO.outcome p = inr v) (map snd ps)
                     \/ exists p, In p ps /\ exists e, IO.outcome (snd p) = inl e).
      { induction ps as [|p rest IH]; [left; constructor|].
        destruct (IO.outcome (snd p)) as [e|v] eqn:Ep.
        - right. exists p. split; [now left | eauto].
        - destruct IH as [IH | (q & Hq & He)].
          + left. constructor; [eauto | exact IH].
          + right. exists q. split; [now right | exact He]. }
      destruct Hdec as [Hall | (p & Hin & e & He)].
      - right. split; [|exact Hall].
        apply first_rejection_none. apply Forall_forall.
        intros x Hx. apply in_map_iff in Hx as (q & <- & Hq).
        rewrite Forall_forall in Hall.
        destruct (Hall (snd q)) as [v Hv]; [now apply in_map|].
        unfold FigmaFetch.rejection. now rewrite Hv.
      - left.
        destruct (promise_all_rejects ps p e Hin He) as [m Hm].
        unfold FigmaFetch.Promise_all, IO.outcome in Hm. simpl in Hm.
        destruct (FigmaFetch.first_rejection None (map FigmaFetch.rejection ps))
          as [m'|]; [|discriminate].
        exists m'. split; [reflexivity|].
        exists (snd p). split; [now apply in_map | eauto]. }
    destruct (Hcases ps1) as [(m1 & -> & p1 & Hp1 & e1 & He1) | [-> Hall1]];
      destruct (Hcases ps2) as [(m2 & -> & p2 & Hp2 & e2 & He2) | [-> Hall2]].
    + exact I.
    + rewrite <- Hs in Hall2. rewrite Forall_forall in Hall2.
      destruct (Hall2 p1 Hp1) as [v Hv]. congruence.
    + rewrite Hs in Hall1. rewrite Forall_forall in Hall1.
      destruct (Hall1 p2 Hp2) as [v Hv]. congruence.
    + reflexivity.
Qed.
End SettleFacts.

(** X14. What the exporter does never depends on the order in which the
    five responses arrive: with any two schedules of the settling times
    the run performs the same requests and writes the same files with
    the same contents, and ends with the same exit code; only the
    message of a failure can differ. *)
Theorem exporter_ignores_arrival_order
        (env : string -> option string) (args : FigmaFetch.Args)
        (outDir : string) (outDir_exists : bool)
        (fetch : FigmaFetch.request -> Http.result JsonValue.t)
        (settles_at settles_at' : nat -> nat) (fetchedAt : string) :
  let main := FigmaFetch.main env args outDir outDir_exists fetch in
  let script := FigmaFetch.script env args outDir outDir_exists fetch in
  IO.events (main settles_at fetchedAt) = IO.events (main settles_at' fetchedAt)
  /\ snd (script settles_at fetchedAt) = snd (script settles_at' fetchedAt)
  /\ FigmaFetch.writes (fst (script settles_at fetchedAt))
     = FigmaFetch.writes (fst (script settles_at' fetchedAt)).
Proof.
  intros main script.
  assert (H : Agree.runs (main settles_at fetchedAt) (main settles_at' fetchedAt)).
  { unfold main, FigmaFetch.main.
    apply agree_bind; [apply agree_refl|]. intros token.
    destruct (FigmaFetch.or_string _ _) as [fileKey|]; [|apply agree_refl].
    destruct (negb (JsString.truthy fileKey)); [apply agree_refl|].
    apply agree_bind; [apply agree_refl|]. intros _.
    apply agree_bind; [|intros results; apply agree_refl].
    apply promise_all_agree. reflexivity. }
  destruct H as [Hev Hout].
  split; [exact Hev|].
  unfold script, FigmaFetch.script. fold (main settles_at fetchedAt).
  fold (main settles_at' fetchedAt).
  destruct (main settles_at fetchedAt) as [tr1 [m1|[]]],
           (main settles_at' fetchedAt) as [tr2 [m2|[]]];
    simpl in *; try contradiction; subst; split; try reflexivity.
  unfold FigmaFetch.writes. rewrite !filter_app. reflexivity.
Qed.

(** ** The list of node ids of the exporter *)

Section TrimFacts.
Import JsString.

Let comma_free := Text.comma_free.
Let headed := Text.headed.

Lemma trimStart_comma_free s : comma_free s = true -> comma_free (FigmaFetch.trimStart s) = true.
Proof.
  unfold comma_free, Text.comma_free.
  induction s as [|c r IH]; simpl; [auto|].
  intros H. destruct (is_space c); [|exact H].
  apply andb_prop in H as [_ H]. auto.
Qed.

Lemma trimEnd_comma_free s : comma_free s = true -> comma_free (FigmaFetch.trimEnd s) = true.
Proof.
  induction s as [|c r IH]; simpl; [auto|].
  intros H. apply andb_prop in H as [Hc Hr]. specialize (IH Hr).
  destruct (FigmaFetch.trimEnd r) as [|c' r'].
  - destruct (is_space c); [reflexivity|].
    unfold comma_free, Text.comma_free. cbn [Text.all].
    now apply andb_true_intro.
  - unfold comma_free, Text.comma_free in *. cbn [Text.all] in *.
    now apply andb_true_intro.
Qed.

Lemma trimEnd_idempotent s : FigmaFetch.trimEnd (FigmaFetch.trimEnd s) = FigmaFetch.trimEnd s.
Proof.
  induction s as [|c r IH]; simpl; [reflexivity|].
  destruct (FigmaFetch.trimEnd r) as [|c' r'] eqn:E.
  - destruct (is_space c) eqn:Ec; simpl; [reflexivity | now rewrite Ec].
  - change (FigmaFetch.trimEnd (String c (String c' r')) = String c (String c' r')).
    simpl FigmaFetch.trimEnd at 1. fold FigmaFetch.trimEnd.
    change (match FigmaFetch.trimEnd (String c' r') with
            | EmptyString => if is_space c then EmptyString else String c EmptyString
            | String a k => String c (String a k)
            end = String c (String c' r')).
    now rewrite IH.
Qed.

Lemma trimStart_headed s : headed (FigmaFetch.trimStart s) = true.
Proof.
  unfold headed, Text.headed.
  induction s as [|c r IH]; simpl; [reflexivity|].
  destruct (is_space c) eqn:E; [exact IH | simpl; now rewrite E].
Qed.

Lemma trimStart_fixes_headed s : headed s = true -> FigmaFetch.trimStart s = s.
Proof.
  unfold headed, Text.headed.
  destruct s as [|c r]; simpl; [reflexivity|].
  now destruct (is_space c).
Qed.

Lemma trimEnd_headed s : headed s = true -> headed (FigmaFetch.trimEnd s) = true.
Proof.
  unfold headed, Text.headed.
  destruct s as [|c r]; simpl; [reflexivity|].
  intros H. destruct (FigmaFetch.trimEnd r); [|exact H].
  destruct (is_space c) eqn:E; [discriminate | simpl; now rewrite E].
Qed.

Lemma trim_idempotent s : FigmaFetch.trim (FigmaFetch.trim s) = FigmaFetch.trim s.
Proof.
  unfold FigmaFetch.trim.
  rewrite (trimStart_fixes_headed (FigmaFetch.trimEnd (FigmaFetch.trimStart s))).
  - apply trimEnd_idempotent.
  - apply trimEnd_headed, trimStart_headed.
Qed.

Lemma trim_comma_free s : comma_free s = true -> comma_free (FigmaFetch.trim s) = true.
Proof. intros H. apply trimEnd_comma_free, trimStart_comma_free, H. Qed.
End TrimFacts.

Section SplitFacts.
Import JsString.

Lemma split_pieces s :
  Forall (fun p => Text.comma_free p = true) (FigmaFetch.split_comma s)
  /\ FigmaFetch.split_comma s <> [].
Proof.
  unfold Text.comma_free.
  induction s as [|c r [IH Hne]]; simpl.
  - split; [repeat constructor | discriminate].
  - destruct (code c =? 44)%N eqn:Ec.
    + split; [constructor; [reflexivity | exact IH] | discriminate].
    + destruct (FigmaFetch.split_comma r) as [|h t]; [contradiction|].
      inversion IH as [|? ? Hh Ht]; subst.
      split; [|discriminate].
      constructor; [|exact Ht]. simpl. unfold Text.is_comma. now rewrite Ec.
Qed.




Lemma is_id_parts s :
  Text.is_id s = true
  <-> truthy s = true /\ Text.comma_free s = true /\ FigmaFetch.trim s = s.
Proof.
  unfold Text.is_id. rewrite !andb_true_iff, String.eqb_eq. tauto.
Qed.

Lemma node_ids_are_ids idsArg :
  Forall (fun id => Text.is_id id = true) (Text.node_ids idsArg).
Proof.
  unfold Text.node_ids. apply Forall_forall. intros id Hin.
  apply filter_In in Hin as [Hin Ht].
  apply in_map_iff in Hin as (piece & <- & Hp).
  destruct (split_pieces idsArg) as [Hall _].
  rewrite Forall_forall in Hall.
  apply is_id_parts. split; [exact Ht|]. split.
  - apply trim_comma_free, Hall, Hp.
  - apply trim_idempotent.
Qed.


Lemma join_truthy s rest :
  truthy s = true -> truthy (FigmaFetch.join_comma (s :: rest)) = true.
Proof.
  destruct s as [|c r]; [discriminate|]. intros _.
  destruct rest; reflexivity.
Qed.
End SplitFacts.


(** X16. The optional export of nodes: without [--nodes] it does
    nothing; with it and no usable id it only prints the notice and
    still succeeds; with ids it makes one request, whose [ids] parameter
    is the ids joined by commas and is never dropped, and writes the
    nodes file exactly when that request is served; a failed request
    throws after the request with nothing written. *)
Theorem node_export_behaviour
        (env : string -> option string) (args : FigmaFetch.Args) (outDir : string)
        (fetch : FigmaFetch.request -> Http.result JsonValue.t)
        (token fileKey : string) :
  let run := FigmaFetch.export_nodes env args outDir fetch token fileKey in
  let nodeIds := Text.node_ids (NodeExport.idsArg env args) in
  let rq := NodeExport.request token fileKey nodeIds in
  (FigmaFetch.nodes args = false -> run = ([], inr tt))
  /\ (FigmaFetch.nodes args = true -> nodeIds = [] ->
      run = ([FigmaFetch.ConsoleError
                "No node IDs provided. Pass --ids comma-separated or set FIGMA_NODE_IDS."],
             inr tt))
  /\ (FigmaFetch.nodes args = true -> nodeIds <> [] ->
      (forall found,
          Http.fulfilled (fetch rq) = Some found ->
          run = ([FigmaFetch.Get rq;
                  FigmaFetch.WriteFile (ExporterRun.path outDir "nodes" fileKey) found],
                 inr tt))
      /\ (Http.unsuccessful (fetch rq) = true ->
          exists message, run = ([FigmaFetch.Get rq], inl message))).
Proof.
  intros run nodeIds rq.
  pose proof (node_ids_are_ids (NodeExport.idsArg env args)) as Hids.
  fold nodeIds in Hids.
  unfold run, FigmaFetch.export_nodes.
  fold (NodeExport.idsArg env args). fold (Text.node_ids (NodeExport.idsArg env args)).
  fold nodeIds. unfold rq, NodeExport.request. clearbody nodeIds. clear run rq.
  split; [intros ->; reflexivity|].
  split; [intros -> ->; reflexivity|].
  intros -> Hne.
  destruct nodeIds as [|id rest]; [congruence|].
  inversion Hids as [|? ? Hid _]; subst.
  apply is_id_parts in Hid as [Ht _].
  unfold FigmaFetch.fetchNodes, FigmaFetch.figmaGet.
  cbn [filter snd]. rewrite (join_truthy id rest Ht).
  fold (ExporterRun.path outDir "nodes" fileKey).
  split.
  - intros found Hf. apply fulfilled_inv in Hf as (? & ? & ? & ->). reflexivity.
  - intros Hu.
    destruct (fetch _) as [m | [] status statusText text json];
      simpl in Hu; try discriminate; cbn; eauto.
Qed.

Lemma node_export_behaviour_witness :
  FigmaFetch.export_nodes Scenario.env ExporterSamples.with_nodes "/out"
    ExporterSamples.serving "figd_token" "CLI"
  = ([FigmaFetch.Get
        (FigmaFetch.makeRequest "/files/CLI/nodes" "figd_token" [("ids", "1:2,3:4")]);
      FigmaFetch.WriteFile "/out/nodes-CLI.json" (Scenario.served "/files/CLI/nodes")],
     inr tt)
  /\ FigmaFetch.export_nodes Scenario.env ExporterSamples.blank_nodes "/out"
       ExporterSamples.serving "figd_token" "KEY"
     = ([FigmaFetch.ConsoleError
           "No node IDs provided. Pass --ids comma-separated or set FIGMA_NODE_IDS."],
        inr tt)
  /\ FigmaFetch.export_nodes Scenario.env Scenario.args "/out"
       ExporterSamples.serving "figd_token" "KEY"
     = ([], inr tt).
Proof.
  destruct (node_export_behaviour Scenario.env ExporterSamples.with_nodes "/out"
              ExporterSamples.serving "figd_token" "CLI") as (_ & _ & Hids).
  destruct (node_export_behaviour Scenario.env ExporterSamples.blank_nodes "/out"
              ExporterSamples.serving "figd_token" "KEY") as (_ & Hblank & _).
  destruct (node_export_behaviour Scenario.env Scenario.args "/out"
              ExporterSamples.serving "figd_token" "KEY") as (Hoff & _ & _).
  split; [|split].
  - destruct (Hids eq_refl) as [Hserved _]; [discriminate|].
    exact (Hserved (Scenario.served "/files/CLI/nodes") eq_refl).
  - exact (Hblank eq_refl eq_refl).
  - exact (Hoff eq_refl).
Defined.

(** X17. [figmaGet] makes exactly one request, in which the parameters
    with an empty value are left out, and returns a body exactly when
    the response is a success whose body parses; a response that is not
    a success is thrown with the endpoint, the status code, the status
    text and the text of the body in the message. *)
Theorem figmaGet_characterised
        (fetch : FigmaFetch.request -> Http.result JsonValue.t)
        (endpoint token : string) (params : list (string * string)) :
  let rq :=
    FigmaFetch.makeRequest endpoint token
      (filter (fun kv => JsString.truthy (snd kv)) params) in
  let run := FigmaFetch.figmaGet fetch endpoint token params in
  IO.events run = [FigmaFetch.Get rq]
  /\ Forall (fun kv => snd kv <> EmptyString) (FigmaFetch.params rq)
  /\ (forall v, IO.outcome run = inr v <-> Http.fulfilled (fetch rq) = Some v)
  /\ (forall status statusText text json,
         fetch rq = Http.Response false status statusText text json ->
         IO.outcome run
         = inl ("Figma API " ++ endpoint ++ " failed: " ++ JsNumber.Z_toString status
                ++ " " ++ statusText ++ " -> " ++ text)%string).
Proof.
  intros rq run. unfold run, FigmaFetch.figmaGet. fold rq.
  split; [|split; [|split]].
  - destruct (fetch rq) as [m | [] status statusText text [m | v]]; reflexivity.
  - apply Forall_forall. intros kv Hin. apply filter_In in Hin as [_ Ht].
    intros E. rewrite E in Ht. discriminate.
  - intros v.
    destruct (fetch rq) as [m | [] status statusText text [m | w]]; simpl;
      split; intros H; try discriminate; injection H as ->; reflexivity.
  - intros status statusText text json ->. reflexivity.
Qed.

Lemma figmaGet_characterised_witness :
  IO.outcome (FigmaFetch.figmaGet ExporterSamples.everywhere_forbidden "/files/KEY/nodes"
                "figd_token" [("ids", "1:2"); ("depth", EmptyString)])
  = inl "Figma API /files/KEY/nodes failed: 403 Forbidden -> denied"
  /\ IO.events (FigmaFetch.figmaGet ExporterSamples.everywhere_forbidden "/files/KEY/nodes"
                  "figd_token" [("ids", "1:2"); ("depth", EmptyString)])
     = [FigmaFetch.Get
          (FigmaFetch.makeRequest "/files/KEY/nodes" "figd_token" [("ids", "1:2")])].
Proof.
  destruct (figmaGet_characterised ExporterSamples.everywhere_forbidden "/files/KEY/nodes"
              "figd_token" [("ids", "1:2"); ("depth", EmptyString)])
    as (Hev & _ & _ & Hmsg).
  split; [|exact Hev].
  exact (Hmsg 403%Z "Forbidden" "denied" _ eq_refl).
Defined.

(** X18. [figmaRequest] of the batch extractor makes exactly one
    request, to the URL of the endpoint with the token in the header,
    and returns a body exactly when the response is a success whose body
    parses; a response that is not a success is thrown with its status
    text alone, without the status code. *)
Theorem figmaRequest_characterised
        (token : option string) (fetch : string -> Http.result Batch.body)
        (endpoint : string) :
  let url := ("https://api.figma.com/v1/" ++ endpoint)%string in
  let run := Batch.figmaRequest token fetch endpoint in
  IO.events run = [Batch.Get url token]
  /\ (forall data, IO.outcome run = inr data <-> Http.fulfilled (fetch url) = Some data)
  /\ (forall status statusText text json,
         fetch url = Http.Response false status statusText text json ->
         IO.outcome run = inl ("Figma API error: " ++ statusText)%string).
Proof.
  intros url run. unfold run, Batch.figmaRequest. fold url.
  split; [|split].
  - destruct (fetch url) as [m | [] status statusText text [m | v]]; reflexivity.
  - intros v.
    destruct (fetch url) as [m | [] status statusText text [m | w]]; simpl;
      split; intros H; try discriminate; injection H as ->; reflexivity.
  - intros status statusText text json ->. reflexivity.
Qed.

Lemma figmaRequest_characterised_witness :
  IO.outcome (Batch.figmaRequest (Some "figd_token") Scenario.network
                "files/zksBuILVajtp60Oca28Vnl/nodes?ids=21:5359")
  = inl "Figma API error: Forbidden".
Proof.
  destruct (figmaRequest_characterised (Some "figd_token") Scenario.network
              "files/zksBuILVajtp60Oca28Vnl/nodes?ids=21:5359") as (_ & _ & Hmsg).
  exact (Hmsg 403%Z "Forbidden" EmptyString _ eq_refl).
Defined.

(** X19. The object written to the file of the document keeps, of the
    file response, the document and the four properties name,
    lastModified, version and role, each when the response has it, adds
    the time of the fetch, and drops every other property of the
    response. *)
Theorem file_payload_keeps_five (fetchedAt : string) (file : JsonValue.t) :
  exists meta,
    FigmaFetch.file_payload fetchedAt file
    = JsonValue.Object
        (("meta", JsonValue.Object meta)
           :: match JsonValue.prop "document" file with
              | Some document => [("document", document)]
              | None => []
              end)
    /\ JsObject.get "fetchedAt" meta = Some (JsonValue.String fetchedAt)
    /\ (forall key, In key ["name"; "lastModified"; "version"; "role"] ->
                    JsObject.get key meta = JsonValue.prop key file)
    /\ incl (map fst meta) ["name"; "lastModified"; "version"; "role"; "fetchedAt"].
Proof.
  unfold FigmaFetch.file_payload.
  destruct (JsonValue.prop "name" file) as [name|] eqn:En;
    destruct (JsonValue.prop "lastModified" file) as [modified|] eqn:Em;
    destruct (JsonValue.prop "version" file) as [version|] eqn:Ev;
    destruct (JsonValue.prop "role" file) as [role|] eqn:Er;
    (eexists; split;
     [ destruct (JsonValue.prop "document" file); reflexivity
     | split; [reflexivity|]; split;
       [ intros key [<- | [<- | [<- | [<- | []]]]]; simpl; congruence
       | intros k Hk; simpl in Hk; simpl; tauto ] ]).
Qed.

(** ** fetch-node.js *)

(** X20. [fetch-node.js] writes nothing when the fetch fails: after the
    one request the error is printed and the exit code is 1; the message
    of a response that is not a success holds the status code and the
    status text. *)
Theorem fetch_node_failure
        (token argv2 : option string) (fetch : string -> Http.result JsonValue.t) :
  let url := FetchNode.url argv2 in
  Http.fulfilled (fetch url) = None ->
  exists message,
    FetchNode.script token argv2 fetch
    = ([FetchNode.Get url token; FetchNode.ConsoleError message], 1%Z)
    /\ (forall status statusText text json,
           fetch url = Http.Response false status statusText text json ->
           message = ("Figma API error: " ++ JsNumber.Z_toString status
                      ++ " " ++ statusText)%string).
Proof.
  intros url Hf. unfold FetchNode.script, FetchNode.getNodeDetails. fold url.
  destruct (fetch url) as [m | [] status statusText text [m | data]];
    simpl in Hf; try discriminate; eexists; (split; [reflexivity|]);
    intros ? ? ? ? E; try discriminate E.
  all: injection E as <- <- _ _; reflexivity.
Qed.

Lemma fetch_node_failure_witness :
  FetchNode.script (Some "figd_token") None FetchNodeRun.refusing
  = ([FetchNode.Get
        "https://api.figma.com/v1/files/zksBuILVajtp60Oca28Vnl/nodes?ids=301:3861"
        (Some "figd_token");
      FetchNode.ConsoleError "Figma API error: 403 Forbidden"], 1%Z).
Proof.
  destruct (fetch_node_failure (Some "figd_token") None FetchNodeRun.refusing eq_refl)
    as (message & E & Hm).
  rewrite E. rewrite (Hm 403%Z "Forbidden" "denied" _ eq_refl). reflexivity.
Defined.



(** ** Text styles and their fingerprints *)

(** X22. A text style without a font weight (or with weight 0) and the
    same style with weight 400 give the same CSS declarations, since the
    default is the string '400', but two different JSON fingerprints,
    one with ["400"] and one with [400]: the typography set counts them
    as two styles. *)
Theorem default_weight_is_a_string (fmt : Q -> string) (style : TypeStyle.t) :
  let missing := Weight.text_node (Weight.with_weight style None) in
  let zero := Weight.text_node (Weight.with_weight style (Some 0%Q)) in
  let regular := Weight.text_node (Weight.with_weight style (Some 400%Q)) in
  getTextStyle fmt zero = getTextStyle fmt missing
  /\ map (entry_decl fmt) (getTextStyle fmt missing)
     = map (entry_decl fmt) (getTextStyle fmt regular)
  /\ Json.stringify fmt (getTextStyle fmt missing)
     <> Json.stringify fmt (getTextStyle fmt regular).
Proof.
  intros missing zero regular.
  split; [reflexivity|]. split; [reflexivity|].
  unfold missing, regular, getTextStyle, Weight.text_node, Weight.with_weight.
  cbn [Node.style TypeStyle.fontFamily TypeStyle.fontSize TypeStyle.fontWeight
       TypeStyle.letterSpacing TypeStyle.lineHeightPx].
  change (JsNumber.truthy 400) with true. cbv iota.
  unfold Json.stringify. cbn [Json.members Json.member fst snd Json.value].
  rewrite !append_assoc.
  intros H.
  repeat (apply append_cancel_l in H).
  discriminate H.
Qed.

(** X23. Once the token and a file key are given, the exporter issues
    all five requests, in the order file, styles, components, variables,
    comments, before anything is written and whatever the answers are;
    the file key is that of [--fileKey] when it is given, even if
    [FIGMA_FILE_KEY] is set, and that of [FIGMA_FILE_KEY] otherwise. *)
Theorem exporter_issues_five_requests
        (env : string -> option string) (args : FigmaFetch.Args)
        (outDir : string) (outDir_exists : bool)
        (fetch : FigmaFetch.request -> Http.result JsonValue.t)
        (settles_at : nat -> nat) (fetchedAt token : string) :
  env "FIGMA_PERSONAL_ACCESS_TOKEN" = Some token ->
  JsString.truthy token = true ->
  let main := FigmaFetch.main env args outDir outDir_exists fetch settles_at fetchedAt in
  let made := if outDir_exists then [] else [FigmaFetch.MkDir outDir] in
  (forall cli,
      FigmaFetch.fileKey args = Some cli -> JsString.truthy cli = true ->
      exists rest, IO.events main = made ++ ExporterRun.gets token cli ++ rest)
  /\ (forall key,
         ExporterRun.given (FigmaFetch.fileKey args) = false ->
         env "FIGMA_FILE_KEY" = Some key -> JsString.truthy key = true ->
         exists rest, IO.events main = made ++ ExporterRun.gets token key ++ rest).
Proof.
  intros Htok Htt main made.
  assert (Hgen : forall key,
             FigmaFetch.or_string (FigmaFetch.fileKey args) (env "FIGMA_FILE_KEY")
             = Some key ->
             JsString.truthy key = true ->
             exists rest, IO.events main = made ++ ExporterRun.gets token key ++ rest).
  { intros key Hkey Hkt. unfold main.
    rewrite (main_after_join env args outDir outDir_exists fetch settles_at fetchedAt
               token key Htok Htt Hkey Hkt).
    pose proof (promises_events outDir outDir_exists fetch settles_at token key) as Hev.
    destruct (FigmaFetch.Promise_all _) as [tr [m | results]];
      cbn [IO.events fst] in Hev.
    - exists []. cbn [IO.events fst]. rewrite Hev. unfold made.
      now rewrite app_nil_r.
    - destruct (FigmaFetch.after_join _ _ _ _ _ _ _ results) as [tr' res].
      exists tr'. cbn [IO.events fst]. rewrite app_assoc, Hev.
      unfold made. rewrite <- app_assoc. reflexivity. }
  split.
  - intros cli Hcli Hct. apply Hgen; [|exact Hct].
    unfold FigmaFetch.or_string. now rewrite Hcli, Hct.
  - intros key Hnot Henv Hkt. apply Hgen; [|exact Hkt].
    unfold FigmaFetch.or_string, ExporterRun.given in *.
    destruct (FigmaFetch.fileKey args) as [a|]; [rewrite Hnot|]; exact Henv.
Qed.

Lemma exporter_issues_five_requests_witness :
  exists rest,
    IO.events (FigmaFetch.main Scenario.env ExporterSamples.with_nodes "/out" true
                 ExporterSamples.everywhere_forbidden Scenario.settles_at Scenario.clock0)
    = ExporterRun.gets "figd_token" "CLI" ++ rest.
Proof.
  destruct (exporter_issues_five_requests Scenario.env ExporterSamples.with_nodes
              "/out" true ExporterSamples.everywhere_forbidden Scenario.settles_at
              Scenario.clock0 "figd_token" eq_refl eq_refl) as [Hcli _].
  exact (Hcli "CLI" eq_refl eq_refl).
Defined.
